(** * drizzle-paginator: the pagination envelope, verified

    A shallow embedding of the two revisions of the paginator that the
    repository carries:

    - [Subquery], from [index.ts]: every page is fetched by wrapping the
      caller's query as a subquery of a hand-built statement;
    - [Paginator], from the later revision of the same file: the query is
      classified at construction, and a query builder with callable
      [limit]/[offset] is windowed directly.

    [JS] holds the fragment of ECMAScript both revisions rely on: numbers
    with the rounding of IEEE 754 binary64, dynamically typed values,
    member access, [Number], [Array.prototype.slice], promises as a
    state-and-exception monad over the list of issued requests.

    The raw-result helper is embedded twice: [IEEE.withSqlPagination] is
    the function with the arithmetic of the engine, and
    [Common.withSqlPagination] is its reading over the integers, which it
    agrees with as long as no intermediate value reaches [2^53]. *)

From Stdlib Require Import ZArith QArith Qround Qabs Qpower Qreduction Qcanon.
From Stdlib Require Import List String Ascii Bool Lia Lqa.
Import ListNotations.

Local Open Scope string_scope.
Local Open Scope Z_scope.

Set Warnings "-register-all".

(* ===================================================================== *)
(** ** The ECMAScript fragment *)
(* ===================================================================== *)

Module JS.

(** Numbers.  A finite number is the rational it denotes, in lowest
    terms, so that equal numbers are equal terms; the two zeros are one.
    The three non-finite numbers are kept apart.  Every arithmetic
    operation computes the exact result and rounds it to the nearest
    binary64 number, ties to even. *)
Inductive num : Type :=
| Fin (q : Q)
| PInf
| NInf
| NaN.

(** The number an integer denotes, when it is one. *)
Definition of_Z (z : Z) : num := Fin (inject_Z z).

Coercion of_Z : Z >-> num.

Definition pow2 (e : Z) : Q := Qpower 2 e.

(** The exponent of the binade of a positive rational:
    [2^(ilog2 x) <= x < 2^(ilog2 x + 1)]. *)
Definition ilog2 (x : Q) : Z :=
  let e := (Z.log2 (Qnum x) - Z.log2 (Zpos (Qden x)))%Z in
  if Qle_bool (pow2 e) x then e else (e - 1)%Z.

Definition roundTiesToEven (y : Q) : Z :=
  let f := Qfloor y in
  match (y - inject_Z f ?= 1 # 2)%Q with
  | Lt => f
  | Gt => (f + 1)%Z
  | Eq => if Z.even f then f else (f + 1)%Z
  end.

(** The binary64 number nearest to a rational, ties to even: 53 bits of
    significand, exponents from [-1074] up, and [Infinity] from the
    rounded magnitude [2^1024] on. *)
Definition round (x : Q) : num :=
  let x := Qred x in
  if Qeq_bool x 0 then Fin 0
  else
    let a := Qabs x in
    let e := Z.max (ilog2 a - 52) (-1074) in
    let r := (inject_Z (roundTiesToEven (a / pow2 e)) * pow2 e)%Q in
    if Qle_bool (pow2 1024) r then (if Qle_bool 0 x then PInf else NInf)
    else Fin (Qred (if Qle_bool 0 x then r else - r)).

Definition negate (n : num) : num :=
  match n with
  | Fin q => Fin (Qred (- q))
  | PInf => NInf
  | NInf => PInf
  | NaN => NaN
  end.

(** [a + b] *)
Definition add (a b : num) : num :=
  match a, b with
  | NaN, _ | _, NaN => NaN
  | Fin x, Fin y => round (x + y)
  | PInf, NInf | NInf, PInf => NaN
  | PInf, _ | _, PInf => PInf
  | NInf, _ | _, NInf => NInf
  end.

(** [a - b] *)
Definition sub (a b : num) : num := add a (negate b).

(** The product of an infinity of the given sign and a finite number. *)
Definition scale_infinity (positive : bool) (x : Q) : num :=
  match (x ?= 0)%Q with
  | Eq => NaN
  | Gt => if positive then PInf else NInf
  | Lt => if positive then NInf else PInf
  end.

(** [a * b] *)
Definition mul (a b : num) : num :=
  match a, b with
  | NaN, _ | _, NaN => NaN
  | Fin x, Fin y => round (x * y)
  | PInf, Fin x | Fin x, PInf => scale_infinity true x
  | NInf, Fin x | Fin x, NInf => scale_infinity false x
  | PInf, PInf | NInf, NInf => PInf
  | PInf, NInf | NInf, PInf => NInf
  end.

(** [a / b] *)
Definition div (a b : num) : num :=
  match a, b with
  | NaN, _ | _, NaN => NaN
  | Fin x, Fin y =>
      if Qeq_bool y 0 then
        match (x ?= 0)%Q with
        | Gt => PInf
        | Lt => NInf
        | Eq => NaN
        end
      else round (x / y)
  | Fin _, (PInf | NInf) => Fin 0
  | PInf, Fin y => if Qle_bool 0 y then PInf else NInf
  | NInf, Fin y => if Qle_bool 0 y then NInf else PInf
  | (PInf | NInf), (PInf | NInf) => NaN
  end.

(** [Math.ceil] *)
Definition Math_ceil (a : num) : num :=
  match a with
  | Fin x => of_Z (Qceiling x)
  | other => other
  end.

(** [Math.max(1, n)] on integers: a page and a page size are taken to be
    integers, so neither [NaN] nor a fraction is ever stored. *)
Definition Math_max (a b : Z) : Z := Z.max a b.

(** The integers every one of which is a number, with no other integer
    rounding to it: those strictly between [-2^53] and [2^53]. *)
Definition safe (z : Z) : Prop := - 2 ^ 53 < z < 2 ^ 53.

(** Values.  Functions are opaque: only their callability is observed. *)
Inductive value : Type :=
| VUndefined
| VNull
| VBool (b : bool)
| VNum (n : num)
| VStr (s : string)
| VFun
| VArr (items : list value)
| VObj (members : list (string * value)).

Definition typeof (v : value) : string :=
  match v with
  | VUndefined => "undefined"
  | VNull => "object"
  | VBool _ => "boolean"
  | VNum _ => "number"
  | VStr _ => "string"
  | VFun => "function"
  | VArr _ => "object"
  | VObj _ => "object"
  end.

Definition is_null (v : value) : bool :=
  match v with VNull => true | _ => false end.

Definition is_undefined (v : value) : bool :=
  match v with VUndefined => true | _ => false end.

Definition Array_isArray (v : value) : bool :=
  match v with VArr _ => true | _ => false end.

Fixpoint lookup (k : string) (ms : list (string * value)) : option value :=
  match ms with
  | [] => None
  | (k', v) :: ms' => if String.eqb k k' then Some v else lookup k ms'
  end.

(** [k in v], for [v] already known to be an object.  None of the names the
    paginator asks for is inherited from a prototype, so only own members
    count, and an array owns none of them. *)
Definition has_member (k : string) (v : value) : bool :=
  match v with
  | VObj ms => match lookup k ms with Some _ => true | None => false end
  | _ => false
  end.

(** [v.k] where [v] is neither [null] nor [undefined]. *)
Definition member (v : value) (k : string) : value :=
  match v with
  | VObj ms => match lookup k ms with Some x => x | None => VUndefined end
  | _ => VUndefined
  end.

(** [rows[0]] *)
Definition first (items : list value) : value :=
  match items with
  | [] => VUndefined
  | x :: _ => x
  end.

(** *** Strings *)

Definition toUpperCase_char (c : ascii) : ascii :=
  let n := nat_of_ascii c in
  if (Nat.leb 97 n && Nat.leb n 122)%bool then ascii_of_nat (n - 32) else c.

Definition toLowerCase_char (c : ascii) : ascii :=
  let n := nat_of_ascii c in
  if (Nat.leb 65 n && Nat.leb n 90)%bool then ascii_of_nat (n + 32) else c.

Fixpoint map_string (f : ascii -> ascii) (s : string) : string :=
  match s with
  | EmptyString => EmptyString
  | String c s' => String (f c) (map_string f s')
  end.

(** [s.toUpperCase()] and [s.toLowerCase()], on 7-bit text. *)
Definition toUpperCase : string -> string := map_string toUpperCase_char.
Definition toLowerCase : string -> string := map_string toLowerCase_char.

(** [list.includes(x)] on strings. *)
Definition includes (l : list string) (x : string) : bool :=
  existsb (String.eqb x) l.

(** *** [Number(v)]: StringToNumber on Latin-1 text, the value of the
    literal rounded to the nearest number *)

Definition isStrWhiteSpaceChar (c : ascii) : bool :=
  match nat_of_ascii c with
  | 9 | 10 | 11 | 12 | 13 | 32 | 160 => true
  | _ => false
  end%nat.

Fixpoint trimStart (l : list ascii) : list ascii :=
  match l with
  | c :: l' => if isStrWhiteSpaceChar c then trimStart l' else l
  | [] => []
  end.

Definition trim (l : list ascii) : list ascii :=
  rev (trimStart (rev (trimStart l))).

Definition digitValue (c : ascii) : option Z :=
  let n := Z.of_nat (nat_of_ascii c) in
  if ((48 <=? n) && (n <=? 57))%Z then Some (n - 48)
  else if ((97 <=? n) && (n <=? 102))%Z then Some (n - 87)
  else if ((65 <=? n) && (n <=? 70))%Z then Some (n - 55)
  else None.

(** Reads the longest prefix of digits of the radix: their value, how many
    there were, and what follows them. *)
Fixpoint readDigits (radix : Z) (l : list ascii) (acc : Z) (count : nat)
  : Z * nat * list ascii :=
  match l with
  | c :: l' =>
      match digitValue c with
      | Some d =>
          if (d <? radix)%Z then readDigits radix l' (acc * radix + d) (S count)
          else (acc, count, l)
      | None => (acc, count, l)
      end
  | [] => (acc, count, l)
  end.

Definition readSign (l : list ascii) : bool * list ascii :=
  match l with
  | "+"%char :: l' => (false, l')
  | "-"%char :: l' => (true, l')
  | _ => (false, l)
  end.

Definition pow10 (e : Z) : Q :=
  if (0 <=? e)%Z then inject_Z (10 ^ e) else (1 / inject_Z (10 ^ (- e)))%Q.

(** ExponentPart, which must end the literal; an absent one scales by 1. *)
Definition readExponent (l : list ascii) : option Q :=
  match l with
  | [] => Some 1%Q
  | c :: l' =>
      if (Ascii.eqb c "e" || Ascii.eqb c "E")%bool then
        let (neg, l'') := readSign l' in
        match readDigits 10 l'' 0 0%nat with
        | (e, S _, []) => Some (pow10 (if neg then - e else e))
        | _ => None
        end
      else None
  end.

(** StrUnsignedDecimalLiteral *)
Definition readUnsignedDecimal (l : list ascii) : option num :=
  if list_eq_dec ascii_dec l (list_ascii_of_string "Infinity") then Some PInf
  else
    let '(i, ni, rest) := readDigits 10 l 0 0%nat in
    match rest with
    | "."%char :: rest' =>
        let '(f, nf, rest'') := readDigits 10 rest' 0 0%nat in
        match ni, nf with
        | O, O => None
        | _, _ =>
            match readExponent rest'' with
            | Some scale =>
                Some (round ((inject_Z i
                              + inject_Z f / inject_Z (10 ^ Z.of_nat nf))
                             * scale))
            | None => None
            end
        end
    | _ =>
        match ni with
        | O => None
        | S _ =>
            match readExponent rest with
            | Some scale => Some (round (inject_Z i * scale))
            | None => None
            end
        end
    end.

(** NonDecimalIntegerLiteral: [0x], [0o], [0b], unsigned. *)
Definition readNonDecimal (l : list ascii) : option num :=
  match l with
  | "0"%char :: p :: l' =>
      let radix :=
        if (Ascii.eqb p "x" || Ascii.eqb p "X")%bool then Some 16
        else if (Ascii.eqb p "o" || Ascii.eqb p "O")%bool then Some 8
        else if (Ascii.eqb p "b" || Ascii.eqb p "B")%bool then Some 2
        else None in
      match radix with
      | Some r =>
          match readDigits r l' 0 0%nat with
          | (v, S _, []) => Some (round (inject_Z v))
          | _ => None
          end
      | None => None
      end
  | _ => None
  end.

Definition StringToNumber (s : string) : num :=
  match trim (list_ascii_of_string s) with
  | [] => of_Z 0
  | l =>
      match readNonDecimal l with
      | Some n => n
      | None =>
          let (neg, l') := readSign l in
          match readUnsignedDecimal l' with
          | Some n => if neg then negate n else n
          | None => NaN
          end
      end
  end.

(** [Number(v)].  An array converts through its string form: the empty
    array is the empty string, a one-element array is the string of its
    element, and the comma joining two or more elements is not part of any
    numeric literal.  An object's string form is not numeric either. *)
Fixpoint Number (v : value) : num :=
  match v with
  | VUndefined => NaN
  | VNull => of_Z 0
  | VBool b => if b then of_Z 1 else of_Z 0
  | VNum n => n
  | VStr s => StringToNumber s
  | VFun => NaN
  | VObj _ => NaN
  | VArr [] => of_Z 0
  | VArr [x] =>
      match x with
      | VUndefined | VNull => of_Z 0
      | VBool _ => NaN
      | _ => Number x
      end
  | VArr _ => NaN
  end.

End JS.

(** [items.slice(start, end)]: a negative index counts from the end, and
    both are clamped into the array. *)
Module Slice.
Import JS.

Definition relative (len i : Z) : Z :=
  if i <? 0 then Z.max (len + i) 0 else Z.min i len.

(** With integer arguments. *)
Definition slice {A : Type} (items : list A) (start final : Z) : list A :=
  let len := Z.of_nat (List.length items) in
  let k := relative len start in
  let e := relative len final in
  firstn (Z.to_nat (Z.max (e - k) 0)) (skipn (Z.to_nat k) items).

(** ToIntegerOrInfinity: [NaN] is 0, a finite number loses its fraction. *)
Inductive integerOrInfinity : Type :=
| Integer (i : Z)
| PlusInfinity
| MinusInfinity.

Definition truncate (q : Q) : Z :=
  if Qle_bool 0 q then Qfloor q else Qceiling q.

Definition ToIntegerOrInfinity (n : num) : integerOrInfinity :=
  match n with
  | NaN => Integer 0
  | PInf => PlusInfinity
  | NInf => MinusInfinity
  | Fin q => Integer (truncate q)
  end.

Definition relativeIndex (len : Z) (i : integerOrInfinity) : Z :=
  match i with
  | MinusInfinity => 0
  | PlusInfinity => len
  | Integer z => relative len z
  end.

(** With any numbers as arguments. *)
Definition Array_slice {A : Type} (items : list A) (start final : num)
  : list A :=
  let len := Z.of_nat (List.length items) in
  let k := relativeIndex len (ToIntegerOrInfinity start) in
  let e := relativeIndex len (ToIntegerOrInfinity final) in
  firstn (Z.to_nat (Z.max (e - k) 0)) (skipn (Z.to_nat k) items).

End Slice.

(** Arithmetic over the integers, without rounding: what the arithmetic of
    [JS] computes as long as every value involved is an integer below
    [2^53] in magnitude. *)
Module Exact.
Import JS.

(** [a / b], the exact quotient. *)
Definition div (a b : num) : num :=
  match a, b with
  | NaN, _ | _, NaN => NaN
  | Fin x, Fin y =>
      if Qeq_bool y 0 then
        match (x ?= 0)%Q with
        | Gt => PInf
        | Lt => NInf
        | Eq => NaN
        end
      else Fin (Qred (x / y))
  | Fin _, (PInf | NInf) => Fin 0
  | PInf, Fin y => if Qle_bool 0 y then PInf else NInf
  | NInf, Fin y => if Qle_bool 0 y then NInf else PInf
  | (PInf | NInf), (PInf | NInf) => NaN
  end.

End Exact.

(* ===================================================================== *)
(** ** The query builder and the backing store *)
(* ===================================================================== *)

Module Drizzle.
Import JS.

(** A [sql`...`] template: its literal text and its interpolations, in
    order. *)
Inductive chunk : Type :=
| Lit (text : string)
| Raw (text : string)            (* sql.raw(text) *)
| Param (n : num)                (* a number, bound as a parameter *)
| Embed (query : value)          (* a query object, embedded as it is *)
| EmbedSQL (query : value).      (* query.getSQL(), embedded *)

Definition SQL : Type := list chunk.

(** The window operations of a query builder; each returns a builder. *)
Inductive operation : Type :=
| orderBy_op (column : SQL) (direction : string)
| limit_op (n : num)
| offset_op (n : num).

(** The execution adapter: the handle itself when it has [execute], or a
    wrapper that hands the statement's text to [$client.query]. *)
Inductive DrizzleDb : Type :=
| Handle (db : value)
| ClientWrapper (db : value).

(** What reaches the backing store: a statement through the adapter, or a
    query builder awaited after the given operations were applied to it. *)
Inductive request : Type :=
| Execute (via : DrizzleDb) (statement : SQL)
| Await (query : value) (operations : list operation).

(** The text a statement's template and raw fragments contribute. *)
Definition written (c : chunk) : string :=
  match c with
  | Lit t | Raw t => t
  | _ => ""
  end.

Definition occurs (needle text : string) : bool :=
  match index 0 needle text with
  | Some _ => true
  | None => false
  end.

(** The statement carries an [ORDER BY] of its own (one inside the
    embedded query is the caller's). *)
Definition has_ORDER_BY (statement : SQL) : bool :=
  existsb (fun c => occurs "ORDER BY" (written c)) statement.

Definition is_orderBy (op : operation) : bool :=
  match op with
  | orderBy_op _ _ => true
  | _ => false
  end.

(** The request asks the store for an ordering. *)
Definition orders (r : request) : bool :=
  match r with
  | Execute _ statement => has_ORDER_BY statement
  | Await _ operations => existsb is_orderBy operations
  end.

End Drizzle.

(** Asynchronous code: a computation issues requests, and either returns or
    throws.  The state is the list of requests issued so far; [await] of a
    rejected promise throws its reason. *)
Module Async.
Import JS Drizzle.

Inductive error : Type :=
| TypeError
| Error (message : string)
| Rejection (reason : value).

Inductive completion (A : Type) : Type :=
| Return (a : A)
| Throw (e : error).
Arguments Return {A} a.
Arguments Throw {A} e.

Definition M (A : Type) : Type := list request -> completion A * list request.

Definition ret {A} (a : A) : M A := fun log => (Return a, log).

Definition throw {A} (e : error) : M A := fun log => (Throw e, log).

Definition bind {A B} (m : M A) (k : A -> M B) : M B :=
  fun log =>
    match m log with
    | (Return a, log') => k a log'
    | (Throw e, log') => (Throw e, log')
    end.

Notation "x <- m ;; k" := (bind m (fun x => k))
  (at level 61, m at next level, right associativity).
Notation "' pat <- m ;; k" := (bind m (fun x => match x with pat => k end))
  (at level 61, pat pattern, m at next level, right associativity).
Notation "m ;;; k" := (bind m (fun _ => k))
  (at level 61, right associativity).

(** A step that issues nothing. *)
Definition lift {A} (c : completion A) : M A := fun log => (c, log).

(** [v.k]: a [TypeError] when [v] is [null] or [undefined]. *)
Definition get (v : value) (k : string) : M value :=
  match v with
  | VUndefined | VNull => throw TypeError
  | _ => ret (member v k)
  end.

(** [v?.k] *)
Definition optional (v : value) (k : string) : value :=
  match v with
  | VUndefined | VNull => VUndefined
  | _ => member v k
  end.

(** Calling [v.k(...)] throws a [TypeError] unless the member is callable. *)
Definition callable (v : value) (k : string) : M unit :=
  f <- get v k ;;
  if String.eqb (typeof f) "function" then ret tt else throw TypeError.

Section Backend.

(** The backing store: its answer to a request, given those issued before.
    A request is a call that returns a promise, as [execute] is declared
    to, and the answer is what the promise settles to: [Throw] is a
    rejection.  An [execute] that throws before it returns a promise is
    not covered. *)
Variable backend : list request -> request -> completion value.

Definition issue (r : request) : M value :=
  fun log => (backend log r, (log ++ [r])%list).

(** [await Promise.all([p, q])]: both requests are issued before either is
    awaited.  When both are rejected, the engine reports the rejection that
    comes first in time; here it is that of the first request. *)
Definition Promise_all (p q : M value) : M (value * value) :=
  fun log =>
    let (a, log1) := p log in
    let (b, log2) := q log1 in
    (match a, b with
     | Return x, Return y => Return (x, y)
     | Throw e, _ => Throw e
     | _, Throw e => Throw e
     end, log2).

End Backend.

(** What follows a completion that returned. *)
Definition and_then {A B} (c : completion A) (k : A -> completion B)
  : completion B :=
  match c with
  | Return a => k a
  | Throw e => Throw e
  end.

(** How two awaited answers settle, and what follows them. *)
Definition settle {A} (a b : completion value)
    (k : value -> value -> completion A) : completion A :=
  match a, b with
  | Return x, Return y => k x y
  | Throw e, _ => Throw e
  | _, Throw e => Throw e
  end.

End Async.

(* ===================================================================== *)
(** ** The result envelope *)
(* ===================================================================== *)

Module PaginationResult.

Record t (T : Type) : Type := {
  data : list T;
  total : JS.num;
  perPage : Z;
  currentPage : Z;
  lastPage : JS.num;
  from : JS.num;
  to : JS.num
}.

Arguments data {T} _.
Arguments total {T} _.
Arguments perPage {T} _.
Arguments currentPage {T} _.
Arguments lastPage {T} _.
Arguments from {T} _.
Arguments to {T} _.

End PaginationResult.

(** What the two revisions have word for word in common: the shape tests,
    the choice of the adapter, the reading of the count, the mapping of
    the rows, the assembly of the envelope, and the raw-result helper. *)
Module Common.
Import JS Drizzle Async.

Definition isPostgresDb (db : value) : bool :=
  String.eqb (typeof db) "object"
  && negb (is_null db)
  && has_member "$client" db
  && String.eqb (typeof (optional (member db "$client") "query")) "function".

Definition hasRows (result : value) : bool :=
  String.eqb (typeof result) "object"
  && negb (is_null result)
  && has_member "rows" result
  && Array_isArray (member result "rows").

(** [result.rows], once [hasRows result] holds. *)
Definition rows (result : value) : list value :=
  match member result "rows" with
  | VArr items => items
  | _ => []
  end.

(** The total count: [0] unless the count result has rows whose first
    holds a [count] other than [undefined], and then [Number] of it. *)
Definition totalItems (countResult : value) : num :=
  if hasRows countResult
     && negb (is_undefined (optional (first (rows countResult)) "count"))
  then Number (member (first (rows countResult)) "count")
  else of_Z 0.

(** A mapper is the caller's function: on a row it returns or throws. *)
Definition MapperFunction : Type := value -> completion value.

(** [rows.map(row => mapper(row))]: row after row; the first throw ends
    it. *)
Fixpoint map_rows (f : MapperFunction) (items : list value)
  : completion (list value) :=
  match items with
  | [] => Return []
  | row :: rest =>
      match f row with
      | Throw e => Throw e
      | Return item =>
          match map_rows f rest with
          | Return others => Return (item :: others)
          | Throw e => Throw e
          end
      end
  end.

(** [mapper ? rows.map(mapper) : rows] *)
Definition mapped (mapper : option MapperFunction) (items : list value)
  : completion (list value) :=
  match mapper with
  | Some f => map_rows f items
  | None => Return items
  end.

Definition unsupported : error :=
  Error "Unsupported database implementation. Please provide a DrizzleDb or PostgreSQL database.".

(** The adapter chosen at construction. *)
Definition adapt (db : value) : M DrizzleDb :=
  execute <- get db "execute" ;;
  if String.eqb (typeof execute) "function" then ret (Handle db)
  else if isPostgresDb db then ret (ClientWrapper db)
  else throw unsupported.

(** The outcome of choosing the adapter; nothing is issued. *)
Definition adapted (db : value) : completion DrizzleDb :=
  match db with
  | VUndefined | VNull => Throw TypeError
  | _ =>
      if String.eqb (typeof (member db "execute")) "function"
      then Return (Handle db)
      else if isPostgresDb db then Return (ClientWrapper db)
      else Throw unsupported
  end.

(** [SELECT COUNT(<column>) as count FROM (<query>) as subquery] *)
Definition countStatement (countColumn : string) (query : chunk) : SQL :=
  [Lit "SELECT COUNT("; Raw countColumn; Lit ") as count FROM ("; query;
   Lit ") as subquery"].

(** [(currentPage - 1) * itemsPerPage] *)
Definition offsetOf (currentPage itemsPerPage : Z) : num :=
  mul (sub currentPage 1) itemsPerPage.

Definition envelope (data : list value) (totalItems : num)
    (itemsPerPage currentPage : Z) (offset : num) : PaginationResult.t value :=
  {| PaginationResult.data := data;
     PaginationResult.total := totalItems;
     PaginationResult.perPage := itemsPerPage;
     PaginationResult.currentPage := currentPage;
     PaginationResult.lastPage := Math_ceil (div totalItems itemsPerPage);
     PaginationResult.from := add offset 1;
     PaginationResult.to := add offset (Z.of_nat (List.length data)) |}.

(** The raw-result helper's argument: [rowCount] may be [null]. *)
Record QueryResult (T : Type) : Type := {
  rowCount : option Z;
  result_rows : list T
}.
Arguments rowCount {T} _.
Arguments result_rows {T} _.

(** [withSqlPagination] read over the integers: offsets, indices and the
    quotient are exact. *)
Definition withSqlPagination {T : Type} (queryResult : QueryResult T)
    (perPage page : Z) : PaginationResult.t T :=
  let totalItems := match rowCount queryResult with Some n => n | None => 0 end in
  let offset := (page - 1) * perPage in
  let data := Slice.slice (result_rows queryResult) offset (offset + perPage) in
  let totalPages := Math_ceil (Exact.div (of_Z totalItems) (of_Z perPage)) in
  {| PaginationResult.data := data;
     PaginationResult.total := of_Z totalItems;
     PaginationResult.perPage := perPage;
     PaginationResult.currentPage := page;
     PaginationResult.lastPage := totalPages;
     PaginationResult.from := of_Z (offset + 1);
     PaginationResult.to := of_Z (offset + Z.of_nat (List.length data)) |}.

End Common.

(** [withSqlPagination] as the engine runs it: every operation rounds. *)
Module IEEE.
Import JS Drizzle Async Common.

Definition withSqlPagination {T : Type} (queryResult : QueryResult T)
    (perPage page : Z) : PaginationResult.t T :=
  let totalItems : num :=
    match rowCount queryResult with Some n => of_Z n | None => of_Z 0 end in
  let offset := mul (sub page 1) perPage in
  let data :=
    Slice.Array_slice (result_rows queryResult) offset (add offset perPage) in
  let totalPages := Math_ceil (div totalItems perPage) in
  {| PaginationResult.data := data;
     PaginationResult.total := totalItems;
     PaginationResult.perPage := perPage;
     PaginationResult.currentPage := page;
     PaginationResult.lastPage := totalPages;
     PaginationResult.from := add offset 1;
     PaginationResult.to := add offset (Z.of_nat (List.length data)) |}.

End IEEE.

(* ===================================================================== *)
(** ** The paginator with query classification *)
(* ===================================================================== *)

Module Paginator.
Import JS Drizzle Async Common.

Definition isDrizzleQueryBuilder (query : value) : bool :=
  String.eqb (typeof query) "object"
  && negb (is_null query)
  && has_member "limit" query
  && has_member "offset" query
  && String.eqb (typeof (member query "limit")) "function"
  && String.eqb (typeof (member query "offset")) "function".

Record DrizzlePaginator : Type := {
  baseQuery : value;
  currentPage : Z;
  itemsPerPage : Z;
  sortBy : option string;
  sortDirection : string;
  mapper : option MapperFunction;
  allowedColumns : list string;
  countColumn : string;
  dbAdapter : DrizzleDb;
  isDirectQuery : bool
}.

(** [new DrizzlePaginator(db, query, countColumn = "*")] *)
Definition new (db query : value) (countColumn : option string)
  : M DrizzlePaginator :=
  adapter <- adapt db ;;
  ret {| baseQuery := query;
         currentPage := 1;
         itemsPerPage := 10;
         sortBy := None;
         sortDirection := "ASC";
         mapper := None;
         allowedColumns := [];
         countColumn := match countColumn with Some c => c | None => "*" end;
         dbAdapter := adapter;
         isDirectQuery := isDrizzleQueryBuilder query |}.

Definition page (n : Z) (this : DrizzlePaginator) : DrizzlePaginator :=
  {| baseQuery := baseQuery this;
     currentPage := Math_max 1 n;
     itemsPerPage := itemsPerPage this;
     sortBy := sortBy this;
     sortDirection := sortDirection this;
     mapper := mapper this;
     allowedColumns := allowedColumns this;
     countColumn := countColumn this;
     dbAdapter := dbAdapter this;
     isDirectQuery := isDirectQuery this |}.

Definition perPage (count : Z) (this : DrizzlePaginator) : DrizzlePaginator :=
  {| baseQuery := baseQuery this;
     currentPage := currentPage this;
     itemsPerPage := Math_max 1 count;
     sortBy := sortBy this;
     sortDirection := sortDirection this;
     mapper := mapper this;
     allowedColumns := allowedColumns this;
     countColumn := countColumn this;
     dbAdapter := dbAdapter this;
     isDirectQuery := isDirectQuery this |}.

Definition orderBy (column direction : string) (this : DrizzlePaginator)
  : DrizzlePaginator :=
  {| baseQuery := baseQuery this;
     currentPage := currentPage this;
     itemsPerPage := itemsPerPage this;
     sortBy :=
       Some (if (Nat.eqb (List.length (allowedColumns this)) 0
                 || includes (allowedColumns this) column)%bool
             then column else "id");
     sortDirection := toUpperCase direction;
     mapper := mapper this;
     allowedColumns := allowedColumns this;
     countColumn := countColumn this;
     dbAdapter := dbAdapter this;
     isDirectQuery := isDirectQuery this |}.

Definition allowColumns (columns : list string) (this : DrizzlePaginator)
  : DrizzlePaginator :=
  {| baseQuery := baseQuery this;
     currentPage := currentPage this;
     itemsPerPage := itemsPerPage this;
     sortBy := sortBy this;
     sortDirection := sortDirection this;
     mapper := mapper this;
     allowedColumns := columns;
     countColumn := countColumn this;
     dbAdapter := dbAdapter this;
     isDirectQuery := isDirectQuery this |}.

Definition map (mapperFn : MapperFunction) (this : DrizzlePaginator)
  : DrizzlePaginator :=
  {| baseQuery := baseQuery this;
     currentPage := currentPage this;
     itemsPerPage := itemsPerPage this;
     sortBy := sortBy this;
     sortDirection := sortDirection this;
     mapper := Some mapperFn;
     allowedColumns := allowedColumns this;
     countColumn := countColumn this;
     dbAdapter := dbAdapter this;
     isDirectQuery := isDirectQuery this |}.

(** The statements and operations [paginate] builds (the white space
    between the tokens of a template is written as one space). *)

Definition directCountQuery (this : DrizzlePaginator) : SQL :=
  countStatement (countColumn this) (EmbedSQL (baseQuery this)).

Definition directOperations (this : DrizzlePaginator) (offset : num)
  : list operation :=
  (match sortBy this with
   | Some column => [orderBy_op [Raw column] (toLowerCase (sortDirection this))]
   | None => []
   end ++ [limit_op (itemsPerPage this); offset_op offset])%list.

Definition subqueryCountQuery (this : DrizzlePaginator) : SQL :=
  countStatement (countColumn this) (Embed (baseQuery this)).

Definition subqueryDataQuery (this : DrizzlePaginator) (offset : num) : SQL :=
  match sortBy this with
  | Some column =>
      [Lit "SELECT * FROM ("; Embed (baseQuery this); Lit ") as subquery ORDER BY ";
       Raw column; Lit " "; Raw (sortDirection this);
       Lit " LIMIT "; Param (itemsPerPage this); Lit " OFFSET "; Param offset]
  | None =>
      [Lit "SELECT * FROM ("; Embed (baseQuery this); Lit ") as subquery LIMIT ";
       Param (itemsPerPage this); Lit " OFFSET "; Param offset]
  end.

Section Backend.

Variable backend : list request -> request -> completion value.

(** [this.dbAdapter.execute(statement)] *)
Definition execute (this : DrizzlePaginator) (statement : SQL) : M value :=
  issue backend (Execute (dbAdapter this) statement).

(** The branch for a query builder.  ([console.log] of the count result has
    no part in what is returned or issued and is left out.) *)
Definition paginateDirectQuery (this : DrizzlePaginator) (offset : num)
  : M (PaginationResult.t value) :=
  if negb (isDrizzleQueryBuilder (baseQuery this)) then
    throw (Error "Expected a Drizzle query builder with limit/offset methods")
  else
    callable (baseQuery this) "getSQL" ;;;
    let countQuery := directCountQuery this in
    match sortBy this with
    | Some _ => callable (baseQuery this) "orderBy"
    | None => ret tt
    end ;;;
    let dataQuery := Await (baseQuery this) (directOperations this offset) in
    ' (countResult, dataResult) <-
      Promise_all (execute this countQuery) (issue backend dataQuery) ;;
    let totalItems := totalItems countResult in
    data <-
      lift (if Array_isArray dataResult then
              match dataResult with
              | VArr items => mapped (mapper this) items
              | _ => Return []
              end
            else if hasRows dataResult
            then mapped (mapper this) (rows dataResult)
            else Return []) ;;
    ret (envelope data totalItems (itemsPerPage this) (currentPage this) offset).

Definition paginateSubqueryStyle (this : DrizzlePaginator) (offset : num)
  : M (PaginationResult.t value) :=
  let countQuery := subqueryCountQuery this in
  let dataQuery := subqueryDataQuery this offset in
  ' (countResult, dataResult) <-
    Promise_all (execute this countQuery) (execute this dataQuery) ;;
  let totalItems := totalItems countResult in
  data <-
    lift (if hasRows dataResult then mapped (mapper this) (rows dataResult)
          else Return []) ;;
  ret (envelope data totalItems (itemsPerPage this) (currentPage this) offset).

(** [paginate(perPage?)]: the paginator as the call leaves it, and the
    promise the call returns. *)
Definition paginate (perPage : option Z) (this : DrizzlePaginator)
  : DrizzlePaginator * M (PaginationResult.t value) :=
  let this :=
    match perPage with
    | Some n =>
        {| baseQuery := baseQuery this;
           currentPage := currentPage this;
           itemsPerPage := Math_max 1 n;
           sortBy := sortBy this;
           sortDirection := sortDirection this;
           mapper := mapper this;
           allowedColumns := allowedColumns this;
           countColumn := countColumn this;
           dbAdapter := dbAdapter this;
           isDirectQuery := isDirectQuery this |}
    | None => this
    end in
  let offset := offsetOf (currentPage this) (itemsPerPage this) in
  (this,
   if (isDirectQuery this && isDrizzleQueryBuilder (baseQuery this))%bool
   then paginateDirectQuery this offset
   else paginateSubqueryStyle this offset).

End Backend.

(** *** Notions derived from [paginate], to state what a call does *)

(** The paginator once the optional argument of [paginate] is applied. *)
Definition override (n : option Z) (this : DrizzlePaginator)
  : DrizzlePaginator :=
  match n with
  | Some n => perPage n this
  | None => this
  end.

Definition offset (this : DrizzlePaginator) : num :=
  offsetOf (currentPage this) (itemsPerPage this).

(** The branch [paginate] takes. *)
Definition direct (this : DrizzlePaginator) : bool :=
  isDirectQuery this && isDrizzleQueryBuilder (baseQuery this).

Definition countRequest (this : DrizzlePaginator) : request :=
  Execute (dbAdapter this)
    (if direct this then directCountQuery this else subqueryCountQuery this).

Definition dataRequest (this : DrizzlePaginator) : request :=
  if direct this
  then Await (baseQuery this) (directOperations this (offset this))
  else Execute (dbAdapter this) (subqueryDataQuery this (offset this)).

(** The rows read off the data result, mapped. *)
Definition pageData (this : DrizzlePaginator) (dataResult : value)
  : completion (list value) :=
  if direct this then
    match dataResult with
    | VArr items => mapped (mapper this) items
    | _ =>
        if hasRows dataResult then mapped (mapper this) (rows dataResult)
        else Return []
    end
  else if hasRows dataResult then mapped (mapper this) (rows dataResult)
  else Return [].

(** The query offers every method the chosen branch calls on it. *)
Definition prepared (this : DrizzlePaginator) : bool :=
  negb (direct this)
  || (String.eqb (typeof (member (baseQuery this) "getSQL")) "function"
      && match sortBy this with
         | Some _ =>
             String.eqb (typeof (member (baseQuery this) "orderBy")) "function"
         | None => true
         end).

(** The paginators a program can hold: built by [new], then configured. *)
Inductive reachable : DrizzlePaginator -> Prop :=
| reach_new db query countColumn log this log' :
    new db query countColumn log = (Return this, log') -> reachable this
| reach_page n this : reachable this -> reachable (page n this)
| reach_perPage n this : reachable this -> reachable (perPage n this)
| reach_orderBy c d this : reachable this -> reachable (orderBy c d this)
| reach_allowColumns l this : reachable this -> reachable (allowColumns l this)
| reach_map f this : reachable this -> reachable (map f this)
| reach_paginate n this : reachable this -> reachable (override n this).

(** The same, for a program that never calls [orderBy]. *)
Inductive unordered : DrizzlePaginator -> Prop :=
| unord_new db query countColumn log this log' :
    new db query countColumn log = (Return this, log') -> unordered this
| unord_page n this : unordered this -> unordered (page n this)
| unord_perPage n this : unordered this -> unordered (perPage n this)
| unord_allowColumns l this : unordered this -> unordered (allowColumns l this)
| unord_map f this : unordered this -> unordered (map f this)
| unord_paginate n this : unordered this -> unordered (override n this).

End Paginator.

(* ===================================================================== *)
(** ** The paginator of [index.ts]: subqueries only *)
(* ===================================================================== *)

Module Subquery.
Import JS Drizzle Async Common.

Record DrizzlePaginator : Type := {
  baseQuery : value;
  currentPage : Z;
  itemsPerPage : Z;
  sortBy : string;
  sortDirection : string;
  mapper : option MapperFunction;
  allowedColumns : list string;
  countColumn : string;
  dbAdapter : DrizzleDb
}.

Definition new (db query : value) (countColumn : option string)
  : M DrizzlePaginator :=
  adapter <- adapt db ;;
  ret {| baseQuery := query;
         currentPage := 1;
         itemsPerPage := 10;
         sortBy := "id";
         sortDirection := "ASC";
         mapper := None;
         allowedColumns := [];
         countColumn := match countColumn with Some c => c | None => "*" end;
         dbAdapter := adapter |}.

Definition page (n : Z) (this : DrizzlePaginator) : DrizzlePaginator :=
  {| baseQuery := baseQuery this;
     currentPage := Math_max 1 n;
     itemsPerPage := itemsPerPage this;
     sortBy := sortBy this;
     sortDirection := sortDirection this;
     mapper := mapper this;
     allowedColumns := allowedColumns this;
     countColumn := countColumn this;
     dbAdapter := dbAdapter this |}.

Definition perPage (count : Z) (this : DrizzlePaginator) : DrizzlePaginator :=
  {| baseQuery := baseQuery this;
     currentPage := currentPage this;
     itemsPerPage := Math_max 1 count;
     sortBy := sortBy this;
     sortDirection := sortDirection this;
     mapper := mapper this;
     allowedColumns := allowedColumns this;
     countColumn := countColumn this;
     dbAdapter := dbAdapter this |}.

Definition orderBy (column direction : string) (this : DrizzlePaginator)
  : DrizzlePaginator :=
  {| baseQuery := baseQuery this;
     currentPage := currentPage this;
     itemsPerPage := itemsPerPage this;
     sortBy :=
       if (Nat.eqb (List.length (allowedColumns this)) 0
           || includes (allowedColumns this) column)%bool
       then column else "id";
     sortDirection := toUpperCase direction;
     mapper := mapper this;
     allowedColumns := allowedColumns this;
     countColumn := countColumn this;
     dbAdapter := dbAdapter this |}.

Definition allowColumns (columns : list string) (this : DrizzlePaginator)
  : DrizzlePaginator :=
  {| baseQuery := baseQuery this;
     currentPage := currentPage this;
     itemsPerPage := itemsPerPage this;
     sortBy := sortBy this;
     sortDirection := sortDirection this;
     mapper := mapper this;
     allowedColumns := columns;
     countColumn := countColumn this;
     dbAdapter := dbAdapter this |}.

Definition map (mapperFn : MapperFunction) (this : DrizzlePaginator)
  : DrizzlePaginator :=
  {| baseQuery := baseQuery this;
     currentPage := currentPage this;
     itemsPerPage := itemsPerPage this;
     sortBy := sortBy this;
     sortDirection := sortDirection this;
     mapper := Some mapperFn;
     allowedColumns := allowedColumns this;
     countColumn := countColumn this;
     dbAdapter := dbAdapter this |}.

Definition countQuery (this : DrizzlePaginator) : SQL :=
  countStatement (countColumn this) (Embed (baseQuery this)).

Definition dataQuery (this : DrizzlePaginator) (offset : num) : SQL :=
  [Lit "SELECT * FROM ("; Embed (baseQuery this); Lit ") as subquery ORDER BY ";
   Raw (sortBy this); Lit " "; Raw (sortDirection this);
   Lit " LIMIT "; Param (itemsPerPage this); Lit " OFFSET "; Param offset].

Section Backend.

Variable backend : list request -> request -> completion value.

Definition execute (this : DrizzlePaginator) (statement : SQL) : M value :=
  issue backend (Execute (dbAdapter this) statement).

Definition paginate (perPage : option Z) (this : DrizzlePaginator)
  : DrizzlePaginator * M (PaginationResult.t value) :=
  let this :=
    match perPage with
    | Some n =>
        {| baseQuery := baseQuery this;
           currentPage := currentPage this;
           itemsPerPage := Math_max 1 n;
           sortBy := sortBy this;
           sortDirection := sortDirection this;
           mapper := mapper this;
           allowedColumns := allowedColumns this;
           countColumn := countColumn this;
           dbAdapter := dbAdapter this |}
    | None => this
    end in
  let offset := offsetOf (currentPage this) (itemsPerPage this) in
  (this,
   ' (countResult, dataResult) <-
     Promise_all (execute this (countQuery this))
                 (execute this (dataQuery this offset)) ;;
   let totalItems := totalItems countResult in
   data <-
     lift (if hasRows dataResult then mapped (mapper this) (rows dataResult)
           else Return []) ;;
   ret (envelope data totalItems (itemsPerPage this) (currentPage this) offset)).

End Backend.

(** *** Notions derived from [paginate] *)

Definition override (n : option Z) (this : DrizzlePaginator)
  : DrizzlePaginator :=
  match n with
  | Some n => perPage n this
  | None => this
  end.

Definition offset (this : DrizzlePaginator) : num :=
  offsetOf (currentPage this) (itemsPerPage this).

Definition countRequest (this : DrizzlePaginator) : request :=
  Execute (dbAdapter this) (countQuery this).

Definition dataRequest (this : DrizzlePaginator) : request :=
  Execute (dbAdapter this) (dataQuery this (offset this)).

Definition pageData (this : DrizzlePaginator) (dataResult : value)
  : completion (list value) :=
  if hasRows dataResult then mapped (mapper this) (rows dataResult)
  else Return [].

Inductive reachable : DrizzlePaginator -> Prop :=
| reach_new db query countColumn log this log' :
    new db query countColumn log = (Return this, log') -> reachable this
| reach_page n this : reachable this -> reachable (page n this)
| reach_perPage n this : reachable this -> reachable (perPage n this)
| reach_orderBy c d this : reachable this -> reachable (orderBy c d this)
| reach_allowColumns l this : reachable this -> reachable (allowColumns l this)
| reach_map f this : reachable this -> reachable (map f this)
| reach_paginate n this : reachable this -> reachable (override n this).

(** The same, for a program that never calls [orderBy]. *)
Inductive unordered : DrizzlePaginator -> Prop :=
| unord_new db query countColumn log this log' :
    new db query countColumn log = (Return this, log') -> unordered this
| unord_page n this : unordered this -> unordered (page n this)
| unord_perPage n this : unordered this -> unordered (perPage n this)
| unord_allowColumns l this : unordered this -> unordered (allowColumns l this)
| unord_map f this : unordered this -> unordered (map f this)
| unord_paginate n this : unordered this -> unordered (override n this).

End Subquery.

(* ===================================================================== *)
(** ** What is claimed of an envelope *)
(* ===================================================================== *)

Module Laws.
Import JS.

(** [c] is the ceiling of [n / k]. *)
Definition is_ceiling (c n k : Z) : Prop := (c - 1) * k < n <= c * k.

(** [to - from + 1], as a program computes it from an envelope. *)
Definition span {T : Type} (r : PaginationResult.t T) : num :=
  add (sub (PaginationResult.to r) (PaginationResult.from r)) 1.

(** Page [p] of size [k], holding [rows] rows, lies where integers are
    exact: [p - 1], the offset, both ends of the window and the number of
    rows are safe. *)
Definition exact (p k : Z) (rows : nat) : Prop :=
  safe (p - 1)
  /\ safe ((p - 1) * k)
  /\ safe ((p - 1) * k + 1)
  /\ safe ((p - 1) * k + Z.of_nat rows)
  /\ Z.of_nat rows < 2 ^ 53.

(** The same for a page and a page size that are at least 1: the window
    ends below [2^53]. *)
Definition below (p k : Z) (rows : nat) : Prop :=
  (p - 1) * k + Z.max 1 (Z.of_nat rows) < 2 ^ 53.

(** The last page is the ceiling of [total / k] for every count below
    [2^53], when [k] is below [2^53] as well. *)
Definition last_page {T : Type} (k : Z) (r : PaginationResult.t T) : Prop :=
  (forall n : Z,
      PaginationResult.total r = of_Z n -> 0 <= n < 2 ^ 53 -> k < 2 ^ 53 ->
      exists c, PaginationResult.lastPage r = of_Z c /\ is_ceiling c n k)
  /\ (PaginationResult.total r = of_Z 0 -> PaginationResult.lastPage r = of_Z 0).

(** The metadata of a page [p] of size [k]: the indices are 1-based, a page
    that holds rows spans [from..to], and the last page is the ceiling of
    [total / k]. *)
Definition metadata {T : Type} (p k : Z) (r : PaginationResult.t T) : Prop :=
  PaginationResult.currentPage r = p
  /\ PaginationResult.perPage r = k
  /\ PaginationResult.from r = of_Z ((p - 1) * k + 1)
  /\ (PaginationResult.data r <> [] ->
      span r = of_Z (Z.of_nat (List.length (PaginationResult.data r))))
  /\ last_page k r.

(** The window has the length of the data, also when it is empty. *)
Definition window {T : Type} (r : PaginationResult.t T) : Prop :=
  span r = of_Z (Z.of_nat (List.length (PaginationResult.data r)))
  /\ (PaginationResult.data r = [] ->
      PaginationResult.to r = sub (PaginationResult.from r) 1
      /\ PaginationResult.to r <> PaginationResult.from r).

(** The count result carries no count: it has no [rows] array, or no first
    row, or a first row without a [count]. *)
Definition count_absent (countResult : value) : Prop :=
  Common.hasRows countResult = false
  \/ Common.rows countResult = []
  \/ Async.optional (first (Common.rows countResult)) "count" = VUndefined.

End Laws.

(* ===================================================================== *)
(** ** A store to run the paginators against *)
(* ===================================================================== *)

Module Scenario.
Import JS Drizzle Async Common.

Definition db : value := VObj [("execute", VFun)].

Definition pool : value := VObj [("$client", VObj [("query", VFun)])].

(** A relational query: it can only be embedded. *)
Definition relational : value := VObj [("getSQL", VFun)].

(** A [db.select()] query builder. *)
Definition builder : value :=
  VObj [("getSQL", VFun); ("orderBy", VFun); ("limit", VFun); ("offset", VFun)].

Definition row (i : Z) : value := VObj [("id", VNum (of_Z i))].

Definition table (size : nat) : list value :=
  List.map (fun i => row (Z.of_nat i)) (seq 1 size).

Fixpoint params (statement : SQL) : list num :=
  match statement with
  | Param n :: rest => n :: params rest
  | _ :: rest => params rest
  | [] => []
  end.

Fixpoint bounds (operations : list operation) : list num :=
  match operations with
  | limit_op n :: rest => n :: bounds rest
  | offset_op n :: rest => n :: bounds rest
  | _ :: rest => bounds rest
  | [] => []
  end.

Definition rows_between (size : nat) (limit offset : Z) : list value :=
  firstn (Z.to_nat limit) (skipn (Z.to_nat offset) (table size)).

(** The rows a store of [size] rows answers a window with: it takes
    integers only. *)
Definition answer (size : nat) (limit offset : num) : completion (list value) :=
  match limit, offset with
  | Fin l, Fin o =>
      if Qeq_bool (inject_Z (Qfloor l)) l && Qeq_bool (inject_Z (Qfloor o)) o
      then Return (rows_between size (Qfloor l) (Qfloor o))
      else Throw (Rejection (VStr "syntax error"))
  | _, _ => Throw (Rejection (VStr "syntax error"))
  end.

Definition as_rows (c : completion (list value)) : completion value :=
  match c with
  | Return items => Return (VObj [("rows", VArr items)])
  | Throw e => Throw e
  end.

Definition as_array (c : completion (list value)) : completion value :=
  match c with
  | Return items => Return (VArr items)
  | Throw e => Throw e
  end.

(** A store holding [size] rows, whose count statement answers with the
    given [count] cell: a [{ rows }] record to a statement, the bare rows
    to an awaited builder. *)
Definition store (size : nat) (count : value)
  : list request -> request -> completion value :=
  fun _ r =>
    match r with
    | Execute _ statement =>
        match params statement with
        | [] => Return (VObj [("rows", VArr [VObj [("count", count)]])])
        | [limit; offset] => as_rows (answer size limit offset)
        | _ => Throw (Rejection (VStr "syntax error"))
        end
    | Await _ operations =>
        match bounds operations with
        | [limit; offset] => as_array (answer size limit offset)
        | _ => Throw (Rejection (VStr "syntax error"))
        end
    end.

(** A store whose count statement answers with an arbitrary result. *)
Definition answering (countResult : value)
  : list request -> request -> completion value :=
  fun _ r =>
    match r with
    | Execute _ statement =>
        match params statement with
        | [] => Return countResult
        | _ => Return (VObj [("rows", VArr [])])
        end
    | Await _ _ => Return (VArr [])
    end.

(** A store that answers the count statement with [countResult] and every
    window with the same [page] of rows, whatever the offset. *)
Definition serving (countResult : value) (page : list value)
  : list request -> request -> completion value :=
  fun _ r =>
    match r with
    | Execute _ statement =>
        match params statement with
        | [] => Return countResult
        | _ => Return (VObj [("rows", VArr page)])
        end
    | Await _ _ => Return (VArr page)
    end.

(** Three rows, whatever the window asked for. *)
Definition three_rows : list value := [row 1; row 2; row 3].

(** A count result of one row. *)
Definition counted (count : value) : value :=
  VObj [("rows", VArr [VObj [("count", count)]])].

(** [new DrizzlePaginator(db, relational)] and
    [new DrizzlePaginator(db, builder)], as [new] builds them. *)
Definition opaque : Paginator.DrizzlePaginator :=
  {| Paginator.baseQuery := relational;
     Paginator.currentPage := 1;
     Paginator.itemsPerPage := 10;
     Paginator.sortBy := None;
     Paginator.sortDirection := "ASC";
     Paginator.mapper := None;
     Paginator.allowedColumns := [];
     Paginator.countColumn := "*";
     Paginator.dbAdapter := Handle db;
     Paginator.isDirectQuery := false |}.

Definition composable : Paginator.DrizzlePaginator :=
  {| Paginator.baseQuery := builder;
     Paginator.currentPage := 1;
     Paginator.itemsPerPage := 10;
     Paginator.sortBy := None;
     Paginator.sortDirection := "ASC";
     Paginator.mapper := None;
     Paginator.allowedColumns := [];
     Paginator.countColumn := "*";
     Paginator.dbAdapter := Handle db;
     Paginator.isDirectQuery := true |}.

(** [new DrizzlePaginator(db, relational)] in [index.ts]. *)
Definition legacy : Subquery.DrizzlePaginator :=
  {| Subquery.baseQuery := relational;
     Subquery.currentPage := 1;
     Subquery.itemsPerPage := 10;
     Subquery.sortBy := "id";
     Subquery.sortDirection := "ASC";
     Subquery.mapper := None;
     Subquery.allowedColumns := [];
     Subquery.countColumn := "*";
     Subquery.dbAdapter := Handle db |}.

End Scenario.

(* ===================================================================== *)
(** ** Observations on requests, and the two revisions side by side *)
(* ===================================================================== *)

Module Observe.
Import JS Drizzle Async Common.


(** A store whose answers do not depend on what was issued before. *)
Definition stateless (backend : list request -> request -> completion value)
  : Prop :=
  forall log log' r, backend log r = backend log' r.

(** Text whose code units are all below 128, where the case mappings of
    [JS] are those of ECMAScript. *)
Fixpoint seven_bit (s : string) : bool :=
  match s with
  | EmptyString => true
  | String c s' => Nat.ltb (nat_of_ascii c) 128 && seven_bit s'
  end.

(** The pages [1..m]. *)
Definition page_numbers (m : nat) : list Z := List.map Z.of_nat (seq 1 m).

(** The envelope with other rows in it. *)
Definition with_data (r : PaginationResult.t value) (data : list value)
  : PaginationResult.t value :=
  {| PaginationResult.data := data;
     PaginationResult.total := PaginationResult.total r;
     PaginationResult.perPage := PaginationResult.perPage r;
     PaginationResult.currentPage := PaginationResult.currentPage r;
     PaginationResult.lastPage := PaginationResult.lastPage r;
     PaginationResult.from := PaginationResult.from r;
     PaginationResult.to := PaginationResult.to r |}.

(** What becomes of an outcome when its rows go through [f]: an error stays,
    a throw of [f] on a row takes the place of the envelope. *)
Definition map_data (f : MapperFunction)
    (outcome : completion (PaginationResult.t value))
  : completion (PaginationResult.t value) :=
  match outcome with
  | Throw e => Throw e
  | Return r =>
      match map_rows f (PaginationResult.data r) with
      | Throw e => Throw e
      | Return data => Return (with_data r data)
      end
  end.

(** [f] returns on every row, and [g] is what it returns. *)
Definition returns (f : MapperFunction) (g : value -> value) : Prop :=
  forall row, f row = Return (g row).

(** A paginator of [index.ts] seen as one of the later revision: the same
    fields, its sort column as a column that was set, its query taken as one
    that can only be embedded. *)
Definition upgrade (this : Subquery.DrizzlePaginator)
  : Paginator.DrizzlePaginator :=
  {| Paginator.baseQuery := Subquery.baseQuery this;
     Paginator.currentPage := Subquery.currentPage this;
     Paginator.itemsPerPage := Subquery.itemsPerPage this;
     Paginator.sortBy := Some (Subquery.sortBy this);
     Paginator.sortDirection := Subquery.sortDirection this;
     Paginator.mapper := Subquery.mapper this;
     Paginator.allowedColumns := Subquery.allowedColumns this;
     Paginator.countColumn := Subquery.countColumn this;
     Paginator.dbAdapter := Subquery.dbAdapter this;
     Paginator.isDirectQuery := false |}.

End Observe.


(* ===================================================================== *)
(** ** Properties *)
(* ===================================================================== *)

Section Arithmetic.
Import JS Laws.

Lemma inject_Z_nonzero (k : Z) : k <> 0 -> Qeq_bool (inject_Z k) 0 = false.
Proof.
  intros Hk. destruct (Qeq_bool (inject_Z k) 0) eqn:E; [|reflexivity].
  apply Qeq_bool_iff in E. unfold Qeq in E. simpl in E. lia.
Qed.

(** Over the integers, [Math.ceil(t / k)] is the ceiling of the quotient. *)
Lemma ceil_div_Fin (t : Q) (k : Z) :
  k <> 0 ->
  Math_ceil (Exact.div (Fin t) (of_Z k)) = of_Z (Qceiling (t / inject_Z k)).
Proof.
  intros Hk. unfold Exact.div, of_Z. rewrite (inject_Z_nonzero k Hk).
  unfold Math_ceil, of_Z. f_equal. f_equal.
  apply Qceiling_comp, Qred_correct.
Qed.

Lemma is_ceiling_unique (c c' n k : Z) :
  1 <= k -> is_ceiling c n k -> is_ceiling c' n k -> c = c'.
Proof. unfold is_ceiling. intros Hk H H'. nia. Qed.

End Arithmetic.

Section Rounding.
Import JS Laws.

Lemma pow2_pos (e : Z) : (0 < pow2 e)%Q.
Proof. apply Qpower_0_lt. reflexivity. Qed.

Lemma pow2_nonneg (n : Z) : 0 <= n -> (pow2 n == inject_Z (2 ^ n))%Q.
Proof. intros H. unfold pow2. now rewrite Zpower_Qpower. Qed.

Lemma pow2_add (a b : Z) : (pow2 (a + b) == pow2 a * pow2 b)%Q.
Proof. apply Qpower_plus. discriminate. Qed.

Lemma pow2_le (a b : Z) : a <= b -> (pow2 a <= pow2 b)%Q.
Proof.
  intros H. replace b with (a + (b - a)) by lia. rewrite pow2_add.
  rewrite <- (Qmult_1_r (pow2 a)) at 1.
  apply Qmult_le_l; [apply pow2_pos|].
  rewrite pow2_nonneg by lia. change 1%Q with (inject_Z 1).
  rewrite <- Zle_Qle. pose proof (Z.pow_pos_nonneg 2 (b - a)). lia.
Qed.

(** [ilog2 a] is the exponent of the binade of [a]. *)
Lemma ilog2_spec (a : Q) :
  (0 < a)%Q -> (pow2 (ilog2 a) <= a)%Q /\ (a < pow2 (ilog2 a + 1))%Q.
Proof.
  intros Ha. destruct a as [n d]. unfold ilog2. cbn [Qnum Qden].
  assert (Hn : 0 < n) by (unfold Qlt in Ha; simpl in Ha; lia).
  set (ln := Z.log2 n). set (ld := Z.log2 (Z.pos d)).
  destruct (Z.log2_spec n Hn) as [Hn1 Hn2]. fold ln in Hn1, Hn2.
  destruct (Z.log2_spec (Z.pos d) eq_refl) as [Hd1 Hd2]. fold ld in Hd1, Hd2.
  assert (Hln : 0 <= ln) by apply Z.log2_nonneg.
  assert (Hld : 0 <= ld) by apply Z.log2_nonneg.
  assert (Hdiv : forall u v, 0 <= u -> 0 <= v ->
            (pow2 (u - v) == inject_Z (2 ^ u) / inject_Z (2 ^ v))%Q).
  { intros u v Hu Hv. unfold pow2. rewrite Qpower_minus by discriminate.
    now rewrite !Zpower_Qpower. }
  assert (Hlow : (pow2 (ln - ld - 1) <= n # d)%Q).
  { replace (ln - ld - 1) with (ln - (ld + 1)) by lia.
    rewrite Hdiv by lia. apply Qle_shift_div_r.
    - change 0%Q with (inject_Z 0). rewrite <- Zlt_Qlt.
      apply Z.pow_pos_nonneg; lia.
    - unfold Qle, Qmult, inject_Z. simpl. rewrite Z.mul_1_r.
      replace (Z.succ ld) with (ld + 1) in Hd2 by lia. nia. }
  assert (Hup : (n # d < pow2 (ln - ld + 1))%Q).
  { replace (ln - ld + 1) with ((ln + 1) - ld) by lia.
    rewrite Hdiv by lia. apply Qlt_shift_div_l.
    - change 0%Q with (inject_Z 0). rewrite <- Zlt_Qlt.
      apply Z.pow_pos_nonneg; lia.
    - unfold Qlt, Qmult, inject_Z. simpl. rewrite Z.mul_1_r.
      replace (Z.succ ln) with (ln + 1) in Hn2 by lia. nia. }
  destruct (Qle_bool (pow2 (ln - ld)) (n # d)) eqn:E.
  - apply Qle_bool_iff in E. split; [exact E | exact Hup].
  - split; [exact Hlow|].
    replace (ln - ld - 1 + 1) with (ln - ld) by lia.
    apply Qnot_le_lt. intros H. apply Qle_bool_iff in H. congruence.
Qed.

Lemma roundTiesToEven_Z (y : Q) (m : Z) :
  (y == inject_Z m)%Q -> roundTiesToEven y = m.
Proof.
  intros H. unfold roundTiesToEven.
  rewrite (Qfloor_comp _ _ H), Qfloor_Z.
  assert (E : (y - inject_Z m ?= 1 # 2)%Q = Lt).
  { apply Qlt_alt. setoid_replace (y - inject_Z m)%Q with 0%Q by (rewrite H; ring).
    reflexivity. }
  now rewrite E.
Qed.

Lemma roundTiesToEven_near (y : Q) :
  (y - (1 # 2) <= inject_Z (roundTiesToEven y) <= y + (1 # 2))%Q.
Proof.
  unfold roundTiesToEven. set (f := Qfloor y).
  pose proof (Qfloor_le y) as Hlo. pose proof (Qlt_floor y) as Hhi.
  fold f in Hlo, Hhi. rewrite inject_Z_plus in Hhi.
  change (inject_Z 1) with 1%Q in Hhi.
  destruct (y - inject_Z f ?= 1 # 2)%Q eqn:E.
  - apply Qeq_alt in E. destruct (Z.even f).
    + lra.
    + rewrite inject_Z_plus. change (inject_Z 1) with 1%Q. lra.
  - apply Qlt_alt in E. lra.
  - apply Qgt_alt in E. rewrite inject_Z_plus. change (inject_Z 1) with 1%Q. lra.
Qed.

Lemma Qeq_bool_false (x y : Q) : ~ (x == y)%Q -> Qeq_bool x y = false.
Proof.
  intros H. destruct (Qeq_bool x y) eqn:E; [|reflexivity].
  apply Qeq_bool_iff in E. contradiction.
Qed.

Lemma Qle_bool_false (x y : Q) : (y < x)%Q -> Qle_bool x y = false.
Proof.
  intros H. destruct (Qle_bool x y) eqn:E; [|reflexivity].
  apply Qle_bool_iff in E. lra.
Qed.

Lemma Qle_bool_true (x y : Q) : (x <= y)%Q -> Qle_bool x y = true.
Proof. apply Qle_bool_iff. Qed.

(** A rational that is an integer multiple of its unit in the last place,
    and below the overflow threshold, is its own rounding. *)
Lemma round_exact (x : Q) (m : Z) :
  ~ (x == 0)%Q ->
  (Qabs (Qred x)
   / pow2 (Z.max (ilog2 (Qabs (Qred x)) - 52) (-1074)) == inject_Z m)%Q ->
  (Qabs x < pow2 1024)%Q ->
  round x = Fin (Qred x).
Proof.
  intros Hx Hm Hmax. unfold round.
  assert (Hr : (Qred x == x)%Q) by apply Qred_correct.
  rewrite Qeq_bool_false by (rewrite Hr; exact Hx).
  set (a := Qabs (Qred x)) in *.
  set (e := Z.max (ilog2 a - 52) (-1074)) in *.
  rewrite (roundTiesToEven_Z _ _ Hm).
  assert (Ha : (inject_Z m * pow2 e == a)%Q).
  { rewrite <- Hm. field. apply Qnot_eq_sym, Qlt_not_eq, pow2_pos. }
  rewrite Qle_bool_false
    by (rewrite Ha; unfold a; rewrite Hr; exact Hmax).
  f_equal. destruct (Qle_bool 0 (Qred x)) eqn:E.
  - apply Qle_bool_iff in E. rewrite <- (Qred_involutive x).
    apply Qred_complete. rewrite Ha. unfold a. now apply Qabs_pos.
  - rewrite <- (Qred_involutive x). apply Qred_complete.
    rewrite Ha. unfold a. rewrite Qabs_neg; [ring|].
    apply Qnot_lt_le. intros H. apply Qlt_le_weak, Qle_bool_iff in H.
    congruence.
Qed.

Lemma Qabs_inject_Z (z : Z) : (Qabs (inject_Z z) == inject_Z (Z.abs z))%Q.
Proof. unfold Qabs, inject_Z. reflexivity. Qed.

(** Integers below [2^53] in magnitude are their own rounding. *)
Lemma round_Z (z : Z) : safe z -> round (inject_Z z) = of_Z z.
Proof.
  intros Hz. unfold safe in Hz.
  destruct (Z.eq_dec z 0) as [->|Hnz]; [reflexivity|].
  transitivity (Fin (Qred (inject_Z z))).
  2:{ unfold of_Z. f_equal. apply Qred_identity. unfold inject_Z. simpl.
      apply Z.gcd_1_r. }
  set (a := Qabs (Qred (inject_Z z))).
  assert (Ha : (a == inject_Z (Z.abs z))%Q).
  { unfold a. rewrite Qred_correct. apply Qabs_inject_Z. }
  assert (Hpos : (0 < a)%Q).
  { rewrite Ha. change 0%Q with (inject_Z 0). rewrite <- Zlt_Qlt. lia. }
  destruct (ilog2_spec a Hpos) as [Hlo Hhi]. set (L := ilog2 a) in *.
  assert (HL0 : 0 <= L).
  { destruct (Z_lt_le_dec L 0) as [H|H]; [|exact H]. exfalso.
    assert (H1 : (pow2 (L + 1) <= pow2 0)%Q) by (apply pow2_le; lia).
    assert (H2 : (inject_Z 1 <= a)%Q)
      by (rewrite Ha, <- Zle_Qle; lia).
    change (pow2 0) with 1%Q in H1. change (inject_Z 1) with 1%Q in H2. lra. }
  assert (HL1 : L <= 52).
  { destruct (Z_le_gt_dec L 52) as [H|H]; [exact H|]. exfalso.
    assert (H1 : (pow2 53 <= pow2 L)%Q) by (apply pow2_le; lia).
    assert (H2 : (a < inject_Z (2 ^ 53))%Q)
      by (rewrite Ha, <- Zlt_Qlt; lia).
    rewrite (pow2_nonneg 53) in H1 by lia. lra. }
  apply (round_exact _ (Z.abs z * 2 ^ (52 - L))).
  - intros H. apply Hnz. unfold Qeq, inject_Z in H. simpl in H. lia.
  - fold a. fold L. rewrite Z.max_l by lia.
    rewrite Ha, inject_Z_mult, <- (pow2_nonneg (52 - L)) by lia.
    replace (52 - L) with (- (L - 52)) by lia.
    unfold pow2. rewrite Qpower_opp. field.
    apply Qnot_eq_sym, Qlt_not_eq, pow2_pos.
  - rewrite Qabs_inject_Z, (pow2_nonneg 1024) by lia.
    rewrite <- Zlt_Qlt.
    assert (2 ^ 53 < 2 ^ 1024) by (apply Z.pow_lt_mono_r; lia). lia.
Qed.

Lemma round_comp (x y : Q) : (x == y)%Q -> round x = round y.
Proof. intros H. unfold round. now rewrite (Qred_complete _ _ H). Qed.

(** Rounding a positive number of the normal range moves it by at most
    one part in [2^53]. *)
Lemma round_near (x : Q) :
  (0 < x)%Q -> (pow2 (-1022) <= x)%Q ->
  (x * (1 + pow2 (-53)) < pow2 1024)%Q ->
  exists r,
    round x = Fin r
    /\ (x * (1 - pow2 (-53)) <= r <= x * (1 + pow2 (-53)))%Q.
Proof.
  intros Hx Hmin Hmax. unfold round.
  assert (Hr : (Qred x == x)%Q) by apply Qred_correct.
  rewrite Qeq_bool_false by (rewrite Hr; lra).
  set (a := Qabs (Qred x)).
  assert (Ha : (a == x)%Q) by (unfold a; rewrite Hr; apply Qabs_pos; lra).
  assert (Hpos : (0 < a)%Q) by (rewrite Ha; exact Hx).
  destruct (ilog2_spec a Hpos) as [Hlo Hhi]. set (L := ilog2 a) in *.
  assert (HL : -1022 <= L).
  { destruct (Z_le_gt_dec (-1022) L) as [H|H]; [exact H|]. exfalso.
    assert (H1 : (pow2 (L + 1) <= pow2 (-1022))%Q) by (apply pow2_le; lia).
    lra. }
  rewrite Z.max_l by lia. set (e := L - 52).
  pose proof (roundTiesToEven_near (a / pow2 e)) as Hm.
  set (m := roundTiesToEven (a / pow2 e)) in *.
  pose proof (pow2_pos e) as He.
  assert (Hulp : (pow2 e * (1 # 2) <= x * pow2 (-53))%Q).
  { assert (E : (pow2 e * (1 # 2) == pow2 L * pow2 (-53))%Q).
    { unfold e. replace (L - 52) with (L + -52) by lia.
      rewrite pow2_add. change (pow2 (-52)) with (1 # 4503599627370496)%Q.
      change (pow2 (-53)) with (1 # 9007199254740992)%Q. ring. }
    rewrite E. apply Qmult_le_compat_r; [lra|].
    apply Qlt_le_weak, pow2_pos. }
  assert (Hbounds : (x * (1 - pow2 (-53)) <= inject_Z m * pow2 e
                     <= x * (1 + pow2 (-53)))%Q).
  { assert (E : (x == a / pow2 e * pow2 e)%Q)
      by (rewrite <- Ha; field; apply Qnot_eq_sym, Qlt_not_eq, He).
    destruct Hm as [Hm1 Hm2].
    apply (Qmult_le_compat_r _ _ (pow2 e)) in Hm1; [|lra].
    apply (Qmult_le_compat_r _ _ (pow2 e)) in Hm2; [|lra].
    set (q := (a / pow2 e)%Q) in *. set (u := pow2 e) in *.
    set (t := pow2 (-53)) in *. set (mm := inject_Z m) in *.
    clearbody q u t mm. clear - E Hm1 Hm2 Hulp. split; lra. }
  rewrite Qle_bool_false by lra.
  rewrite Qle_bool_true by (rewrite Hr; lra).
  eexists. split; [reflexivity|]. rewrite Qred_correct. exact Hbounds.
Qed.

Lemma Qceiling_unique (r : Q) (c : Z) :
  (inject_Z (c - 1) < r)%Q -> (r <= inject_Z c)%Q -> Qceiling r = c.
Proof.
  intros H1 H2.
  pose proof (Qceiling_lt r) as H3. pose proof (Qle_ceiling r) as H4.
  assert (H5 : (inject_Z (Qceiling r - 1) < inject_Z c)%Q) by lra.
  assert (H6 : (inject_Z (c - 1) < inject_Z (Qceiling r))%Q) by lra.
  rewrite <- Zlt_Qlt in H5, H6. lia.
Qed.

Lemma Qred_inject_Z (z : Z) : Qred (inject_Z z) = inject_Z z.
Proof. apply Qred_identity. unfold inject_Z. simpl. apply Z.gcd_1_r. Qed.

Lemma negate_Z (z : Z) : negate (of_Z z) = of_Z (- z).
Proof.
  unfold negate, of_Z. f_equal. rewrite <- (Qred_inject_Z (- z)).
  apply Qred_complete. now rewrite inject_Z_opp.
Qed.

Lemma add_Z (a b : Z) : safe (a + b) -> add (of_Z a) (of_Z b) = of_Z (a + b).
Proof.
  intros H. rewrite <- (round_Z _ H).
  change (add (of_Z a) (of_Z b)) with (round (inject_Z a + inject_Z b)).
  apply round_comp. now rewrite inject_Z_plus.
Qed.

Lemma sub_Z (a b : Z) : safe (a - b) -> sub (of_Z a) (of_Z b) = of_Z (a - b).
Proof. intros H. unfold sub. rewrite negate_Z. now apply add_Z. Qed.

Lemma mul_Z (a b : Z) : safe (a * b) -> mul (of_Z a) (of_Z b) = of_Z (a * b).
Proof.
  intros H. rewrite <- (round_Z _ H).
  change (mul (of_Z a) (of_Z b)) with (round (inject_Z a * inject_Z b)).
  apply round_comp. now rewrite inject_Z_mult.
Qed.

Lemma Qceiling_Zdiv (n k : Z) :
  1 <= k -> is_ceiling (Qceiling (inject_Z n / inject_Z k)) n k.
Proof.
  intros Hk. unfold is_ceiling.
  assert (Hc : Qceiling (inject_Z n / inject_Z k) = - ((- n) / k)).
  { unfold Qceiling. f_equal. rewrite Zdiv_Qdiv. apply Qfloor_comp.
    rewrite inject_Z_opp. field.
    intros E. unfold Qeq in E. simpl in E. lia. }
  pose proof (Z.div_mod (- n) k ltac:(lia)) as Hdm.
  pose proof (Z.mod_pos_bound (- n) k ltac:(lia)) as Hm.
  rewrite Hc. nia.
Qed.

(** [Math.ceil(n / k)] is the ceiling of the quotient for a count and a
    page size below [2^53]: the rounding of the quotient never reaches the
    next integer. *)
Lemma ceil_div_count (n k : Z) :
  0 <= n < 2 ^ 53 -> 1 <= k < 2 ^ 53 ->
  exists c, Math_ceil (div (of_Z n) (of_Z k)) = of_Z c /\ is_ceiling c n k.
Proof.
  intros Hn Hk.
  set (x := (inject_Z n / inject_Z k)%Q).
  exists (Qceiling x). split; [|apply Qceiling_Zdiv; lia].
  pose proof (Qceiling_Zdiv n k ltac:(lia)) as Hc. fold x in Hc.
  set (c := Qceiling x) in *. unfold is_ceiling in Hc.
  assert (Hk0 : ~ (inject_Z k == 0)%Q)
    by (intros E; unfold Qeq in E; simpl in E; lia).
  assert (Hkpos : (0 < inject_Z k)%Q)
    by (change 0%Q with (inject_Z 0); rewrite <- Zlt_Qlt; lia).
  unfold div, of_Z. rewrite (Qeq_bool_false _ _ Hk0). fold x.
  destruct (Z.eq_dec n (c * k)) as [E|E].
  - (* the quotient is an integer *)
    assert (Hx : (x == inject_Z c)%Q).
    { unfold x. rewrite E, inject_Z_mult. field. exact Hk0. }
    rewrite (round_comp _ _ Hx), round_Z by (unfold safe; nia).
    unfold Math_ceil, of_Z. now rewrite Qceiling_Z.
  - assert (Hn1 : 1 <= n).
    { destruct (Z.eq_dec n 0) as [Hz|Hz]; [|lia]. exfalso.
      assert (c = 0) by nia. subst c. apply E. lia. }
    assert (Hxk : (x * inject_Z k == inject_Z n)%Q)
      by (unfold x; field; exact Hk0).
    assert (Hxpos : (0 < x)%Q).
    { unfold x. apply Qlt_shift_div_l; [exact Hkpos|].
      rewrite Qmult_0_l. change 0%Q with (inject_Z 0).
      rewrite <- Zlt_Qlt. lia. }
    assert (HkQ : (inject_Z k < 9007199254740992)%Q).
    { change 9007199254740992%Q with (inject_Z (2 ^ 53)).
      rewrite <- Zlt_Qlt. lia. }
    assert (HnQ : (1 <= inject_Z n < 9007199254740992)%Q).
    { change 9007199254740992%Q with (inject_Z (2 ^ 53)).
      change 1%Q with (inject_Z 1). rewrite <- Zlt_Qlt, <- Zle_Qle. lia. }
    change (pow2 (-53)) with (1 # 9007199254740992)%Q.
    assert (Hlow : (inject_Z (c - 1) * inject_Z k + 1 <= x * inject_Z k)%Q).
    { rewrite Hxk, <- inject_Z_mult. change 1%Q with (inject_Z 1).
      rewrite <- inject_Z_plus, <- Zle_Qle. lia. }
    assert (Hhigh : (x * inject_Z k + 1 <= inject_Z c * inject_Z k)%Q).
    { rewrite Hxk, <- inject_Z_mult. change 1%Q with (inject_Z 1).
      rewrite <- inject_Z_plus, <- Zle_Qle. lia. }
    assert (Hx53 : (x < 9007199254740992)%Q).
    { unfold x. apply Qlt_shift_div_r; [exact Hkpos|].
      apply Qlt_le_trans with 9007199254740992%Q; [lra|].
      rewrite <- (Qmult_1_r 9007199254740992) at 1.
      apply Qmult_le_l; [reflexivity|].
      change 1%Q with (inject_Z 1). rewrite <- Zle_Qle. lia. }
    destruct (round_near x Hxpos) as (r & Hr & Hr1 & Hr2).
    + (* above the subnormal range *)
      apply Qle_trans with (1 # 9007199254740992)%Q;
        [change (1 # 9007199254740992)%Q with (pow2 (-53)); apply pow2_le; lia|].
      unfold x. apply Qle_shift_div_l; [exact Hkpos|]. lra.
    + (* below the overflow threshold *)
      change (pow2 (-53)) with (1 # 9007199254740992)%Q.
      apply Qlt_trans with 18014398509481984%Q; [lra|].
      rewrite (pow2_nonneg 1024) by lia.
      change 18014398509481984%Q with (inject_Z (2 ^ 54)).
      rewrite <- Zlt_Qlt. apply Z.pow_lt_mono_r; lia.
    + rewrite Hr. unfold Math_ceil. apply (f_equal of_Z).
      change (pow2 (-53)) with (1 # 9007199254740992)%Q in Hr1, Hr2.
      assert (Hx1 : (x * (1 # 9007199254740992) * inject_Z k < 1)%Q).
      { setoid_replace (x * (1 # 9007199254740992) * inject_Z k)%Q
          with (inject_Z n * (1 # 9007199254740992))%Q by (rewrite <- Hxk; ring).
        lra. }
      assert (Hr1k : (x * (1 - (1 # 9007199254740992)) * inject_Z k
                      <= r * inject_Z k)%Q)
        by (apply Qmult_le_compat_r; lra).
      assert (Hr2k : (r * inject_Z k
                      <= x * (1 + (1 # 9007199254740992)) * inject_Z k)%Q)
        by (apply Qmult_le_compat_r; lra).
      assert (Hc1 : (inject_Z (c - 1) * inject_Z k < r * inject_Z k)%Q).
      { set (xk := (x * inject_Z k)%Q) in *.
        setoid_replace (x * (1 - (1 # 9007199254740992)) * inject_Z k)%Q
          with (xk - x * (1 # 9007199254740992) * inject_Z k)%Q in Hr1k
          by (unfold xk; ring).
        lra. }
      assert (Hc2 : (r * inject_Z k < inject_Z c * inject_Z k)%Q).
      { set (xk := (x * inject_Z k)%Q) in *.
        setoid_replace (x * (1 + (1 # 9007199254740992)) * inject_Z k)%Q
          with (xk + x * (1 # 9007199254740992) * inject_Z k)%Q in Hr2k
          by (unfold xk; ring).
        lra. }
      apply Qceiling_unique.
      * apply Qmult_lt_r in Hc1; assumption.
      * apply Qlt_le_weak. apply Qmult_lt_r in Hc2; assumption.
Qed.

End Rounding.

Section Runs.
Import JS Drizzle Async Common.

Variable backend : list request -> request -> completion value.

Lemma app_two {A} (l : list A) (x y : A) :
  ((l ++ [x]) ++ [y])%list = (l ++ [x; y])%list.
Proof. now rewrite <- app_assoc. Qed.

(** [Promise.all] over two issued requests. *)
Lemma Promise_all_issue (r1 r2 : request) (log : list request) :
  Promise_all (issue backend r1) (issue backend r2) log =
  (settle (backend log r1) (backend (log ++ [r1])%list r2)
          (fun x y => Return (x, y)),
   (log ++ [r1; r2])%list).
Proof.
  unfold Promise_all, issue, settle. rewrite app_two.
  destruct (backend log r1), (backend (log ++ [r1])%list r2); reflexivity.
Qed.

Lemma settle_Return {A} (a b : completion value)
    (k : value -> value -> completion A) r :
  settle a b k = Return r ->
  exists x y, a = Return x /\ b = Return y /\ k x y = Return r.
Proof.
  destruct a as [x|e], b as [y|e']; simpl; intros H; try discriminate.
  now exists x, y.
Qed.

Lemma and_then_Return {A B} (c : completion A) (k : A -> completion B) r :
  and_then c k = Return r -> exists a, c = Return a /\ k a = Return r.
Proof. destruct c as [a|e]; simpl; intros H; [now exists a | discriminate]. Qed.

Lemma callable_run (v : value) (k : string) (log : list request) :
  v <> VUndefined -> v <> VNull ->
  callable v k log =
  (if String.eqb (typeof (member v k)) "function"
   then Return tt else Throw TypeError, log).
Proof.
  intros Hu Hn. unfold callable, bind, get.
  destruct v; try congruence; unfold ret;
    destruct (String.eqb (typeof _) "function"); reflexivity.
Qed.

Lemma builder_is_object (q : value) :
  Paginator.isDrizzleQueryBuilder q = true -> q <> VUndefined /\ q <> VNull.
Proof. destruct q; simpl; intros H; try discriminate; split; congruence. Qed.

Lemma fst_paginate n this :
  fst (Paginator.paginate backend n this) = Paginator.override n this.
Proof. destruct n; reflexivity. Qed.

(** What a call of [paginate] does: the two requests go out in order, their
    answers settle, the rows are mapped, and the envelope is assembled. *)
Lemma paginate_run n this log :
  let this' := Paginator.override n this in
  Paginator.prepared this' = true ->
  snd (Paginator.paginate backend n this) log =
  (settle (backend log (Paginator.countRequest this'))
          (backend (log ++ [Paginator.countRequest this'])%list
                   (Paginator.dataRequest this'))
          (fun countResult dataResult =>
             and_then (Paginator.pageData this' dataResult)
               (fun data =>
                  Return (envelope data
                            (totalItems countResult)
                            (Paginator.itemsPerPage this')
                            (Paginator.currentPage this')
                            (Paginator.offset this')))),
   (log ++ [Paginator.countRequest this'; Paginator.dataRequest this'])%list).
Proof.
  intros this' Hp.
  assert (E : snd (Paginator.paginate backend n this) =
              if Paginator.direct this'
              then Paginator.paginateDirectQuery backend this' (Paginator.offset this')
              else Paginator.paginateSubqueryStyle backend this' (Paginator.offset this'))
    by (destruct n; reflexivity).
  rewrite E. clear E.
  unfold Paginator.prepared, Paginator.countRequest, Paginator.dataRequest,
    Paginator.pageData in *.
  destruct (Paginator.direct this') eqn:Hd; simpl in Hp.
  - unfold Paginator.direct in Hd. apply andb_prop in Hd as [_ Hb].
    destruct (builder_is_object _ Hb) as [Hu Hn].
    apply andb_prop in Hp as [Hg Ho].
    unfold Paginator.paginateDirectQuery. rewrite Hb. cbn [negb].
    unfold bind at 1. rewrite (callable_run _ _ _ Hu Hn), Hg.
    unfold bind at 1.
    assert (Hs : (match Paginator.sortBy this' with
                  | Some _ => callable (Paginator.baseQuery this') "orderBy"
                  | None => ret tt
                  end) log = (Return tt, log)).
    { destruct (Paginator.sortBy this'); [|reflexivity].
      now rewrite (callable_run _ _ _ Hu Hn), Ho. }
    rewrite Hs. unfold bind, Paginator.execute. rewrite Promise_all_issue.
    unfold settle.
    destruct (backend log _) as [cr|e]; [|reflexivity].
    destruct (backend (log ++ _)%list _) as [dr|e]; [|reflexivity].
    unfold ret, lift, and_then.
    destruct dr; simpl;
      repeat match goal with
             | |- context [match ?c with Return _ => _ | Throw _ => _ end] =>
                 destruct c
             end; reflexivity.
  - unfold Paginator.paginateSubqueryStyle, bind, Paginator.execute.
    rewrite Promise_all_issue. unfold settle.
    destruct (backend log _) as [cr|e]; [|reflexivity].
    destruct (backend (log ++ _)%list _) as [dr|e]; [|reflexivity].
    unfold ret, lift, and_then.
    destruct (if hasRows dr then _ else _); reflexivity.
Qed.

(** A query builder that lacks a method the direct branch calls makes the
    call throw before anything is issued. *)
Lemma paginate_unprepared n this log :
  Paginator.prepared (Paginator.override n this) = false ->
  snd (Paginator.paginate backend n this) log = (Throw TypeError, log).
Proof.
  set (this' := Paginator.override n this). intros Hp.
  assert (E : snd (Paginator.paginate backend n this) =
              if Paginator.direct this'
              then Paginator.paginateDirectQuery backend this' (Paginator.offset this')
              else Paginator.paginateSubqueryStyle backend this' (Paginator.offset this'))
    by (destruct n; reflexivity).
  rewrite E. clear E. unfold Paginator.prepared in Hp.
  destruct (Paginator.direct this') eqn:Hd; simpl in Hp; [|discriminate].
  unfold Paginator.direct in Hd. apply andb_prop in Hd as [_ Hb].
  destruct (builder_is_object _ Hb) as [Hu Hn].
  unfold Paginator.paginateDirectQuery. rewrite Hb. cbn [negb].
  unfold bind at 1. rewrite (callable_run _ _ _ Hu Hn).
  destruct (String.eqb (typeof (member _ "getSQL")) "function"); [|reflexivity].
  simpl in Hp. unfold bind at 1.
  destruct (Paginator.sortBy this'); [|discriminate].
  rewrite (callable_run _ _ _ Hu Hn), Hp. reflexivity.
Qed.

Lemma paginate_Return n this log r log' :
  snd (Paginator.paginate backend n this) log = (Return r, log') ->
  let this' := Paginator.override n this in
  exists countResult dataResult data,
    backend log (Paginator.countRequest this') = Return countResult
    /\ backend (log ++ [Paginator.countRequest this'])%list
               (Paginator.dataRequest this') = Return dataResult
    /\ Paginator.pageData this' dataResult = Return data
    /\ log' = (log ++ [Paginator.countRequest this'; Paginator.dataRequest this'])%list
    /\ r = envelope data
                    (totalItems countResult)
                    (Paginator.itemsPerPage this')
                    (Paginator.currentPage this')
                    (Paginator.offset this').
Proof.
  intros H this'.
  destruct (Paginator.prepared this') eqn:Hp.
  - rewrite (paginate_run n this log Hp) in H. fold this' in H.
    inversion H as [[Hs Hl]].
    apply settle_Return in Hs as (x & y & Hx & Hy & Hr).
    apply and_then_Return in Hr as (data & Hd & Hr).
    exists x, y, data. inversion Hr. repeat split; auto.
  - rewrite (paginate_unprepared n this log Hp) in H. discriminate.
Qed.

End Runs.

Section LegacyRuns.
Import JS Drizzle Async Common.

Variable backend : list request -> request -> completion value.

Lemma legacy_fst_paginate n this :
  fst (Subquery.paginate backend n this) = Subquery.override n this.
Proof. destruct n; reflexivity. Qed.

(** [index.ts] has no branch: the two statements always go out. *)
Lemma legacy_paginate_run n this log :
  let this' := Subquery.override n this in
  snd (Subquery.paginate backend n this) log =
  (settle (backend log (Subquery.countRequest this'))
          (backend (log ++ [Subquery.countRequest this'])%list
                   (Subquery.dataRequest this'))
          (fun countResult dataResult =>
             and_then (Subquery.pageData this' dataResult)
               (fun data =>
                  Return (envelope data
                            (totalItems countResult)
                            (Subquery.itemsPerPage this')
                            (Subquery.currentPage this')
                            (Subquery.offset this')))),
   (log ++ [Subquery.countRequest this'; Subquery.dataRequest this'])%list).
Proof.
  intros this'.
  assert (E : snd (Subquery.paginate backend n this) =
    (' (countResult, dataResult) <-
       Promise_all (Subquery.execute backend this' (Subquery.countQuery this'))
         (Subquery.execute backend this'
            (Subquery.dataQuery this' (Subquery.offset this'))) ;;
     data <- lift (Subquery.pageData this' dataResult) ;;
     ret (envelope data (totalItems countResult)
            (Subquery.itemsPerPage this') (Subquery.currentPage this')
            (Subquery.offset this'))))
    by (destruct n; reflexivity).
  rewrite E. clear E.
  unfold bind, Subquery.execute. rewrite Promise_all_issue.
  unfold settle, Subquery.countRequest, Subquery.dataRequest.
  destruct (backend log _) as [cr|e]; [|reflexivity].
  destruct (backend (log ++ _)%list _) as [dr|e]; [|reflexivity].
  unfold ret, lift, and_then.
  destruct (Subquery.pageData this' dr); reflexivity.
Qed.

Lemma legacy_paginate_Return n this log r log' :
  snd (Subquery.paginate backend n this) log = (Return r, log') ->
  let this' := Subquery.override n this in
  exists countResult dataResult data,
    backend log (Subquery.countRequest this') = Return countResult
    /\ backend (log ++ [Subquery.countRequest this'])%list
               (Subquery.dataRequest this') = Return dataResult
    /\ Subquery.pageData this' dataResult = Return data
    /\ log' = (log ++ [Subquery.countRequest this'; Subquery.dataRequest this'])%list
    /\ r = envelope data
                    (totalItems countResult)
                    (Subquery.itemsPerPage this')
                    (Subquery.currentPage this')
                    (Subquery.offset this').
Proof.
  intros H this'. rewrite legacy_paginate_run in H. fold this' in H.
  inversion H as [[Hs Hl]].
  apply settle_Return in Hs as (x & y & Hx & Hy & Hr).
  apply and_then_Return in Hr as (data & Hd & Hr).
  exists x, y, data. inversion Hr. repeat split; auto.
Qed.

End LegacyRuns.

Section Envelopes.
Import JS Drizzle Async Common Laws.

Lemma of_Z_inj (a b : Z) : of_Z a = of_Z b -> a = b.
Proof. unfold of_Z, inject_Z. intros H. now inversion H. Qed.

Lemma below_exact (p k : Z) (rows : nat) :
  1 <= p -> 1 <= k -> below p k rows -> exact p k rows.
Proof. unfold below, exact, safe. intros Hp Hk H. nia. Qed.

(** Where integers are exact, the offset is [(p - 1) * k]. *)
Lemma offsetOf_Z (p k : Z) :
  safe (p - 1) -> safe ((p - 1) * k) -> offsetOf p k = of_Z ((p - 1) * k).
Proof.
  intros H1 H2. unfold offsetOf. rewrite sub_Z by exact H1. now apply mul_Z.
Qed.

(** [to - from + 1] between two safe integers. *)
Lemma span_Z {T : Type} (r : PaginationResult.t T) (a b : Z) :
  PaginationResult.from r = of_Z a -> PaginationResult.to r = of_Z b ->
  safe (b - a) -> safe (b - a + 1) ->
  span r = of_Z (b - a + 1).
Proof.
  intros Hf Ht H1 H2. unfold span. rewrite Hf, Ht.
  rewrite sub_Z by exact H1. now apply add_Z.
Qed.

(** Over the integers, the last page is the ceiling for every count. *)
Lemma ceiling_of_count (n k : Z) :
  1 <= k ->
  exists c,
    Math_ceil (Exact.div (of_Z n) (of_Z k)) = of_Z c /\ is_ceiling c n k.
Proof.
  intros Hk. exists (Qceiling (inject_Z n / inject_Z k)). split.
  - apply ceil_div_Fin. lia.
  - apply Qceiling_Zdiv, Hk.
Qed.

(** The quotient of zero. *)
Lemma ceil_div_zero (k : Z) :
  k <> 0 -> Math_ceil (div (of_Z 0) (of_Z k)) = of_Z 0.
Proof.
  intros Hk. unfold div, of_Z. rewrite (inject_Z_nonzero k Hk).
  rewrite (round_comp (inject_Z 0 / inject_Z k) 0).
  - reflexivity.
  - unfold Qdiv. apply Qmult_0_l.
Qed.

Lemma last_page_of_envelope data tot k p off :
  1 <= k -> last_page k (envelope data tot k p off).
Proof.
  intros Hk. unfold last_page, envelope. simpl. split.
  - intros n -> Hn Hk'. apply ceil_div_count; lia.
  - intros ->. apply ceil_div_zero. lia.
Qed.

(** The two ends of the window, where integers are exact. *)
Lemma envelope_bounds data tot k p :
  exact p k (List.length data) ->
  let r := envelope data tot k p (offsetOf p k) in
  PaginationResult.from r = of_Z ((p - 1) * k + 1)
  /\ PaginationResult.to r = of_Z ((p - 1) * k + Z.of_nat (List.length data)).
Proof.
  intros (H1 & H2 & H3 & H4 & _). unfold envelope. simpl.
  rewrite (offsetOf_Z p k H1 H2). split; now apply add_Z.
Qed.

Lemma envelope_span data tot k p :
  exact p k (List.length data) ->
  span (envelope data tot k p (offsetOf p k))
  = of_Z (Z.of_nat (List.length data)).
Proof.
  intros H. destruct (envelope_bounds data tot k p H) as [Hf Ht].
  destruct H as (H1 & H2 & H3 & H4 & H5).
  rewrite (span_Z _ _ _ Hf Ht); unfold safe in *; [f_equal|..]; lia.
Qed.

(** The envelope of page [p >= 1] of size [k >= 1], cut at
    [(p - 1) * k]. *)
Lemma envelope_metadata data tot k p :
  1 <= p -> 1 <= k -> below p k (List.length data) ->
  metadata p k (envelope data tot k p (offsetOf p k)).
Proof.
  intros Hp Hk Hb. pose proof (below_exact p k _ Hp Hk Hb) as He.
  unfold metadata.
  split; [reflexivity|]. split; [reflexivity|].
  split; [apply (envelope_bounds data tot k p He)|].
  split; [intros _; apply envelope_span, He|].
  apply last_page_of_envelope, Hk.
Qed.

Lemma envelope_window data tot k p :
  exact p k (List.length data) ->
  window (envelope data tot k p (offsetOf p k)).
Proof.
  intros He. split; [apply envelope_span, He|].
  destruct (envelope_bounds data tot k p He) as [Hf Ht].
  destruct He as (H1 & H2 & H3 & H4 & H5).
  cbv zeta in Hf, Ht. intros Hd.
  change (PaginationResult.data (envelope data tot k p (offsetOf p k)))
    with data in Hd.
  rewrite Hf, Ht, Hd. simpl List.length. split.
  - rewrite sub_Z; [f_equal; lia|]. unfold safe in *. lia.
  - intros E. apply of_Z_inj in E. lia.
Qed.

End Envelopes.

Section Invariants.
Import JS Drizzle Async Common.

Lemma adapt_run db log : adapt db log = (adapted db, log).
Proof.
  unfold adapt, adapted, bind, get, ret, throw.
  destruct db; try reflexivity;
    destruct (String.eqb (typeof _) "function"); try reflexivity;
    destruct (isPostgresDb _); reflexivity.
Qed.

Lemma adapted_Return db a :
  adapted db = Return a -> a = Handle db \/ a = ClientWrapper db.
Proof.
  unfold adapted.
  destruct db; try discriminate;
    destruct (String.eqb (typeof _) "function");
    try (intros H; inversion H; auto; fail);
    destruct (isPostgresDb _); intros H; inversion H; auto.
Qed.

Lemma new_fields db query cc log this log' :
  Paginator.new db query cc log = (Return this, log') ->
  log' = log
  /\ Paginator.currentPage this = 1
  /\ Paginator.itemsPerPage this = 10
  /\ Paginator.sortBy this = None
  /\ Paginator.baseQuery this = query
  /\ (Paginator.dbAdapter this = Handle db \/ Paginator.dbAdapter this = ClientWrapper db).
Proof.
  unfold Paginator.new, bind. rewrite adapt_run.
  destruct (adapted db) as [a|e] eqn:E; unfold ret; intros H; inversion H.
  subst. simpl. repeat split; auto using adapted_Return.
Qed.

(** Page and page size never drop below 1. *)
Lemma reachable_positive this :
  Paginator.reachable this ->
  1 <= Paginator.currentPage this /\ 1 <= Paginator.itemsPerPage this.
Proof.
  induction 1 as [db q cc log this log' H| | | | | |[n|] this _ IH];
    simpl; unfold Math_max; try lia.
  apply new_fields in H. lia.
Qed.

Lemma legacy_new_fields db query cc log this log' :
  Subquery.new db query cc log = (Return this, log') ->
  log' = log
  /\ Subquery.currentPage this = 1
  /\ Subquery.itemsPerPage this = 10
  /\ Subquery.sortBy this = "id"
  /\ Subquery.sortDirection this = "ASC".
Proof.
  unfold Subquery.new, bind. rewrite adapt_run.
  destruct (adapted db) as [a|e] eqn:E; unfold ret; intros H; inversion H.
  subst. simpl. repeat split; auto.
Qed.

Lemma legacy_reachable_positive this :
  Subquery.reachable this ->
  1 <= Subquery.currentPage this /\ 1 <= Subquery.itemsPerPage this.
Proof.
  induction 1 as [db q cc log this log' H| | | | | |[n|] this _ IH];
    simpl; unfold Math_max; try lia.
  apply legacy_new_fields in H. lia.
Qed.

(** Without [orderBy], no sort column is ever set. *)
Lemma unordered_sortBy this :
  Paginator.unordered this -> Paginator.sortBy this = None.
Proof.
  induction 1 as [db q cc log this log' H| | | | |[n|] this _ IH]; simpl; auto.
  now apply new_fields in H.
Qed.

Lemma legacy_unordered_sortBy this :
  Subquery.unordered this ->
  Subquery.sortBy this = "id" /\ Subquery.sortDirection this = "ASC".
Proof.
  induction 1 as [db q cc log this log' H| | | | |[n|] this _ IH]; simpl; auto.
  now apply legacy_new_fields in H.
Qed.

End Invariants.

Section Reachable.
Import JS Drizzle Async Common Laws.

(** Whatever a program did with its paginator, the envelope [paginate]
    returns has the metadata of its page, as long as the window ends below
    [2^53]. *)
Corollary reachable_metadata backend n this log r log' :
  Paginator.reachable this ->
  snd (Paginator.paginate backend n this) log = (Return r, log') ->
  below (Paginator.currentPage (Paginator.override n this))
        (Paginator.itemsPerPage (Paginator.override n this))
        (List.length (PaginationResult.data r)) ->
  metadata (Paginator.currentPage (Paginator.override n this))
           (Paginator.itemsPerPage (Paginator.override n this)) r.
Proof.
  intros Hr H Hb.
  apply paginate_Return in H as (cr & dr & data & _ & _ & _ & _ & ->).
  destruct (reachable_positive _ (Paginator.reach_paginate n this Hr)).
  now apply envelope_metadata.
Qed.

End Reachable.

Section Claims.
Import JS Drizzle Async Common Laws.

(** From an offset inside or past the array, [slice] is the next [k]
    elements there are. *)
Lemma slice_window {A} (items : list A) (off k : Z) :
  0 <= off -> 0 <= k ->
  Slice.slice items off (off + k)
  = firstn (Z.to_nat k) (skipn (Z.to_nat off) items).
Proof.
  intros Hoff Hk. unfold Slice.slice, Slice.relative.
  set (len := Z.of_nat (List.length items)).
  assert (Hlen : 0 <= len) by (unfold len; lia).
  destruct (off <? 0) eqn:E1; [lia|].
  destruct (off + k <? 0) eqn:E2; [lia|].
  destruct (Z_lt_le_dec off len) as [Hin|Hout].
  - rewrite (Z.min_l off len) by lia.
    destruct (Z_le_gt_dec (off + k) len) as [Hfit|Hcut].
    + rewrite Z.min_l by lia. f_equal. lia.
    + rewrite Z.min_r by lia.
      assert (Hl : List.length (skipn (Z.to_nat off) items)
                   = Z.to_nat (Z.max (len - off) 0)).
      { rewrite length_skipn. unfold len. lia. }
      rewrite <- Hl, firstn_all. symmetry. apply firstn_all2.
      rewrite Hl. lia.
  - rewrite (Z.min_r off len), (Z.min_r (off + k) len) by lia.
    replace (Z.max (len - len) 0) with 0 by lia.
    rewrite (skipn_all2 (n := Z.to_nat off)) by (unfold len in Hout; lia).
    now rewrite firstn_nil.
Qed.

(** An integer index is the integer. *)
Lemma ToIntegerOrInfinity_Z (z : Z) :
  Slice.ToIntegerOrInfinity (of_Z z) = Slice.Integer z.
Proof.
  unfold Slice.ToIntegerOrInfinity, of_Z, Slice.truncate. f_equal.
  destruct (Qle_bool 0 (inject_Z z)); [apply Qfloor_Z | apply Qceiling_Z].
Qed.

Lemma Array_slice_Z {A} (items : list A) (start final : Z) :
  Slice.Array_slice items (of_Z start) (of_Z final)
  = Slice.slice items start final.
Proof.
  unfold Slice.Array_slice, Slice.slice.
  now rewrite !ToIntegerOrInfinity_Z.
Qed.

(** [slice] returns no more rows than there are. *)
Lemma Array_slice_length {A} (items : list A) (start final : num) :
  (List.length (Slice.Array_slice items start final)
   <= List.length items)%nat.
Proof.
  unfold Slice.Array_slice. rewrite length_firstn, length_skipn. lia.
Qed.

(** The helper of the engine, where integers are exact: the offset, the
    rows, and the two ends of the window. *)
Lemma IEEE_offset {T} (queryResult : QueryResult T) (k p : Z) :
  safe (p - 1) -> safe ((p - 1) * k) ->
  let r := IEEE.withSqlPagination queryResult k p in
  (safe ((p - 1) * k + k) ->
   PaginationResult.data r
   = Slice.slice (result_rows queryResult) ((p - 1) * k) ((p - 1) * k + k))
  /\ (safe ((p - 1) * k + 1) ->
      PaginationResult.from r = of_Z ((p - 1) * k + 1))
  /\ (safe ((p - 1) * k + Z.of_nat (List.length (PaginationResult.data r))) ->
      PaginationResult.to r
      = of_Z ((p - 1) * k + Z.of_nat (List.length (PaginationResult.data r)))).
Proof.
  intros H1 H2 r. unfold r, IEEE.withSqlPagination.
  cbn [PaginationResult.data PaginationResult.from PaginationResult.to].
  fold (offsetOf p k). rewrite (offsetOf_Z p k H1 H2).
  split; [|split].
  - intros H. rewrite add_Z by exact H. apply Array_slice_Z.
  - intros H. now apply add_Z.
  - intros H. now apply add_Z.
Qed.

Lemma IEEE_window {T} (queryResult : QueryResult T) (k p : Z) :
  exact p k
        (List.length
           (PaginationResult.data (IEEE.withSqlPagination queryResult k p))) ->
  window (IEEE.withSqlPagination queryResult k p).
Proof.
  intros (H1 & H2 & H3 & H4 & H5).
  destruct (IEEE_offset queryResult k p H1 H2) as (_ & Hf & Ht).
  cbv zeta in Hf, Ht. specialize (Hf H3). specialize (Ht H4).
  set (r := IEEE.withSqlPagination queryResult k p) in *.
  split.
  - rewrite (span_Z _ _ _ Hf Ht); unfold safe in *; [f_equal|..]; lia.
  - intros Hd. rewrite Hf, Ht, Hd. simpl List.length. split.
    + rewrite sub_Z; [f_equal; lia|]. unfold safe in *. lia.
    + intros E. apply of_Z_inj in E. lia.
Qed.

(** C1 fails from [2^53] on, where the arithmetic of the engine rounds.
    Page [2^52 + 1] of size 4 holding three rows has the exact offset
    [2^54]: [from] is [2^54] and not [2^54 + 1], [to] is [2^54 + 4], and
    [to - from + 1] is 5.  A count of [2^54 + 12] at size 3 has the last
    page 6004799503160665, one below the ceiling. *)
Lemma metadata_rounds_from_2_53 :
  (exists r log',
      snd (Paginator.paginate
             (Scenario.serving (Scenario.counted (VStr "3")) Scenario.three_rows) None
             (Paginator.perPage 4
                (Paginator.page (2 ^ 52 + 1) Scenario.opaque))) []
      = (Return r, log')
      /\ PaginationResult.currentPage r = 2 ^ 52 + 1
      /\ PaginationResult.perPage r = 4
      /\ PaginationResult.data r = Scenario.three_rows
      /\ PaginationResult.from r = of_Z (2 ^ 54)
      /\ PaginationResult.from r <> of_Z ((2 ^ 52 + 1 - 1) * 4 + 1)
      /\ PaginationResult.to r = of_Z (2 ^ 54 + 4)
      /\ span r = of_Z 5)
  /\ (exists r log',
      snd (Paginator.paginate
             (Scenario.serving
                (Scenario.counted (VStr "18014398509481996")) Scenario.three_rows)
             None (Paginator.perPage 3 Scenario.opaque)) []
      = (Return r, log')
      /\ PaginationResult.total r = of_Z (2 ^ 54 + 12)
      /\ PaginationResult.lastPage r = of_Z 6004799503160665
      /\ is_ceiling 6004799503160666 (2 ^ 54 + 12) 3
      /\ ~ is_ceiling 6004799503160665 (2 ^ 54 + 12) 3).
Proof.
  split.
  - eexists. eexists. split; [vm_compute; reflexivity|].
    repeat (split; [vm_compute; reflexivity|]).
    split; [|split; vm_compute; reflexivity].
    intros E. apply of_Z_inj in E. vm_compute in E. discriminate E.
  - eexists. eexists. split; [vm_compute; reflexivity|].
    split; [vm_compute; reflexivity|].
    split; [vm_compute; reflexivity|].
    unfold is_ceiling. split; lia.
Qed.

(** C1, amended.  A call of [paginate] whose effective page [p] and page
    size [k] are integers that are at least 1, and whose window ends below
    [2^53], returns an envelope with [from = (p - 1) * k + 1], with
    [to - from + 1] the number of rows whenever there are rows, and with
    [lastPage] the ceiling of [total / k] for every count [total] from 0
    to below [2^53], given [k] below [2^53], so that a total of zero gives
    a last page of zero.  This holds of both revisions of [paginate]. *)
Theorem paginate_metadata :
  (forall backend n this log r log',
      1 <= Paginator.currentPage (Paginator.override n this) ->
      1 <= Paginator.itemsPerPage (Paginator.override n this) ->
      snd (Paginator.paginate backend n this) log = (Return r, log') ->
      below (Paginator.currentPage (Paginator.override n this))
            (Paginator.itemsPerPage (Paginator.override n this))
            (List.length (PaginationResult.data r)) ->
      metadata (Paginator.currentPage (Paginator.override n this))
               (Paginator.itemsPerPage (Paginator.override n this)) r)
  /\ (forall backend n this log r log',
      1 <= Subquery.currentPage (Subquery.override n this) ->
      1 <= Subquery.itemsPerPage (Subquery.override n this) ->
      snd (Subquery.paginate backend n this) log = (Return r, log') ->
      below (Subquery.currentPage (Subquery.override n this))
            (Subquery.itemsPerPage (Subquery.override n this))
            (List.length (PaginationResult.data r)) ->
      metadata (Subquery.currentPage (Subquery.override n this))
               (Subquery.itemsPerPage (Subquery.override n this)) r).
Proof.
  split; intros backend n this log r log' Hp Hk H Hb.
  - apply paginate_Return in H as (cr & dr & data & _ & _ & _ & _ & ->).
    now apply envelope_metadata.
  - apply legacy_paginate_Return in H as (cr & dr & data & _ & _ & _ & _ & ->).
    now apply envelope_metadata.
Qed.

(** The last page of 95 rows, ten to a page: rows 91 to 95 of 10 pages. *)
Lemma paginate_metadata_witness :
  metadata 10 10
    {| PaginationResult.data := Scenario.rows_between 95 10 90;
       PaginationResult.total := of_Z 95;
       PaginationResult.perPage := 10;
       PaginationResult.currentPage := 10;
       PaginationResult.lastPage := of_Z 10;
       PaginationResult.from := of_Z 91;
       PaginationResult.to := of_Z 95 |}.
Proof.
  apply (proj1 paginate_metadata (Scenario.store 95 (VStr "95")) None
           (Paginator.page 10 Scenario.opaque) []
           _
           [Paginator.countRequest (Paginator.page 10 Scenario.opaque);
            Paginator.dataRequest (Paginator.page 10 Scenario.opaque)]).
  - change (1 <= 10). lia.
  - change (1 <= 10). lia.
  - vm_compute. reflexivity.
  - vm_compute. reflexivity.
Defined.

(** C8 fails from [2^53] on.  Page [2^52 + 1] of size 4 with three rows
    has [to - from + 1 = 5]; page [2^53] of size 3 of an empty result has
    [to = from], and [to - from + 1 = 1] for no row. *)
Lemma window_rounds_from_2_53 :
  (exists r log',
      snd (Paginator.paginate
             (Scenario.serving (Scenario.counted (VStr "3")) Scenario.three_rows) None
             (Paginator.perPage 4
                (Paginator.page (2 ^ 52 + 1) Scenario.opaque))) []
      = (Return r, log')
      /\ List.length (PaginationResult.data r) = 3%nat
      /\ span r = of_Z 5)
  /\ (let r := IEEE.withSqlPagination
                 {| rowCount := Some 0; result_rows := @nil value |}
                 3 (2 ^ 53) in
      PaginationResult.data r = []
      /\ PaginationResult.from r = of_Z 27021597764222972
      /\ PaginationResult.to r = PaginationResult.from r
      /\ span r = of_Z 1).
Proof.
  split.
  - eexists. eexists. split; [vm_compute; reflexivity|].
    split; vm_compute; reflexivity.
  - cbv zeta. repeat split; vm_compute; reflexivity.
Qed.

(** C8, amended.  An envelope of [paginate], in either revision, or of
    [withSqlPagination], for an integer page and page size, has
    [to - from + 1] equal to the number of rows, whether or not there are
    rows, as long as the page lies where integers are exact: an empty page
    then has [to = from - 1], and not [to = from]. *)
Theorem envelope_window_length :
  (forall backend n this log r log',
      snd (Paginator.paginate backend n this) log = (Return r, log') ->
      exact (Paginator.currentPage (Paginator.override n this))
            (Paginator.itemsPerPage (Paginator.override n this))
            (List.length (PaginationResult.data r)) ->
      window r)
  /\ (forall backend n this log r log',
      snd (Subquery.paginate backend n this) log = (Return r, log') ->
      exact (Subquery.currentPage (Subquery.override n this))
            (Subquery.itemsPerPage (Subquery.override n this))
            (List.length (PaginationResult.data r)) ->
      window r)
  /\ (forall (T : Type) (queryResult : QueryResult T) perPage page,
      exact page perPage
            (List.length
               (PaginationResult.data
                  (IEEE.withSqlPagination queryResult perPage page))) ->
      window (IEEE.withSqlPagination queryResult perPage page)).
Proof.
  split; [|split].
  - intros backend n this log r log' H He.
    apply paginate_Return in H as (cr & dr & data & _ & _ & _ & _ & ->).
    now apply envelope_window.
  - intros backend n this log r log' H He.
    apply legacy_paginate_Return in H as (cr & dr & data & _ & _ & _ & _ & ->).
    now apply envelope_window.
  - intros T qr k p He. apply IEEE_window, He.
Qed.

(** Page 11 of 95 rows is empty: it spans 101 to 100. *)
Lemma envelope_window_length_witness :
  window
    {| PaginationResult.data := @nil value;
       PaginationResult.total := of_Z 95;
       PaginationResult.perPage := 10;
       PaginationResult.currentPage := 11;
       PaginationResult.lastPage := of_Z 10;
       PaginationResult.from := of_Z 101;
       PaginationResult.to := of_Z 100 |}.
Proof.
  apply (proj1 envelope_window_length (Scenario.store 95 (VStr "95")) None
           (Paginator.page 11 Scenario.composable) []
           _
           [Paginator.countRequest (Paginator.page 11 Scenario.composable);
            Paginator.dataRequest (Paginator.page 11 Scenario.composable)]).
  - vm_compute. reflexivity.
  - vm_compute. repeat split; reflexivity.
Defined.

(** C3. A page or a page size that is not positive is set to 1, by the
    setters and by the argument of [paginate] alike: the paginator is left
    as [page(1)], respectively [perPage(1)], leaves it, and the call of
    [paginate] is the call with 1.  The setters return the paginator and
    cannot throw. *)
Theorem nonpositive_is_one :
  forall (n : Z) (this : Paginator.DrizzlePaginator),
    n <= 0 ->
    Paginator.page n this = Paginator.page 1 this
    /\ Paginator.perPage n this = Paginator.perPage 1 this
    /\ (forall backend,
          fst (Paginator.paginate backend (Some n) this)
          = Paginator.perPage 1 this
          /\ Paginator.paginate backend (Some n) this
             = Paginator.paginate backend (Some 1) this).
Proof.
  intros n this Hn.
  assert (E : Math_max 1 n = 1) by (unfold Math_max; lia).
  unfold Paginator.page, Paginator.perPage, Paginator.paginate.
  rewrite E. change (Math_max 1 1) with 1. repeat split; reflexivity.
Qed.

Lemma nonpositive_is_one_witness :
  Paginator.page (-3) Scenario.opaque = Paginator.page 1 Scenario.opaque.
Proof.
  apply (proj1 (nonpositive_is_one (-3) Scenario.opaque ltac:(lia))).
Defined.

Lemma includes_In (l : list string) (x : string) :
  includes l x = true <-> In x l.
Proof.
  unfold includes. rewrite existsb_exists. split.
  - intros (y & Hy & E). apply String.eqb_eq in E. now subst.
  - intros H. exists x. split; [exact H | apply String.eqb_refl].
Qed.

Lemma length_zero {A} (l : list A) :
  Nat.eqb (List.length l) 0 = true <-> l = [].
Proof. destruct l; simpl; split; intros H; congruence. Qed.

(** The column [orderBy] settles on. *)
Lemma sort_column (allowed : list string) (column : string) :
  (allowed <> [] -> ~ In column allowed ->
   (if (Nat.eqb (List.length allowed) 0 || includes allowed column)%bool
    then column else "id") = "id")
  /\ (allowed = [] \/ In column allowed ->
      (if (Nat.eqb (List.length allowed) 0 || includes allowed column)%bool
       then column else "id") = column).
Proof.
  split.
  - intros Hne Hnin.
    destruct (Nat.eqb (List.length allowed) 0) eqn:E1.
    + apply length_zero in E1. contradiction.
    + destruct (includes allowed column) eqn:E2; [|reflexivity].
      apply includes_In in E2. contradiction.
  - intros [H|H].
    + subst. reflexivity.
    + apply includes_In in H. rewrite H, orb_true_r. reflexivity.
Qed.

(** C4. [orderBy(c, d)] takes the column ["id"] when the allow-list is not
    empty and lacks [c], and the column [c] when the list is empty or holds
    [c]; the direction becomes [d] in upper case.  In both revisions. *)
Theorem orderBy_allow_list :
  (forall c d this,
      (Paginator.allowedColumns this <> [] ->
       ~ In c (Paginator.allowedColumns this) ->
       Paginator.sortBy (Paginator.orderBy c d this) = Some "id")
      /\ (Paginator.allowedColumns this = [] \/ In c (Paginator.allowedColumns this) ->
          Paginator.sortBy (Paginator.orderBy c d this) = Some c)
      /\ Paginator.sortDirection (Paginator.orderBy c d this) = toUpperCase d)
  /\ (forall c d this,
      (Subquery.allowedColumns this <> [] ->
       ~ In c (Subquery.allowedColumns this) ->
       Subquery.sortBy (Subquery.orderBy c d this) = "id")
      /\ (Subquery.allowedColumns this = [] \/ In c (Subquery.allowedColumns this) ->
          Subquery.sortBy (Subquery.orderBy c d this) = c)
      /\ Subquery.sortDirection (Subquery.orderBy c d this) = toUpperCase d)
  /\ toUpperCase "asc" = "ASC"
  /\ toUpperCase "desc" = "DESC".
Proof.
  repeat split; try reflexivity; simpl.
  - intros H1 H2. f_equal. now apply sort_column.
  - intros H. f_equal. now apply sort_column.
  - intros H1 H2. now apply sort_column.
  - intros H. now apply sort_column.
Qed.

Lemma orderBy_allow_list_witness :
  Paginator.sortBy
    (Paginator.orderBy "password" "desc"
       (Paginator.allowColumns ["name"; "email"] Scenario.opaque))
  = Some "id"
  /\ Paginator.sortBy
       (Paginator.orderBy "email" "desc"
          (Paginator.allowColumns ["name"; "email"] Scenario.opaque))
     = Some "email".
Proof.
  split.
  - apply (proj1 (proj1 orderBy_allow_list "password" "desc"
             (Paginator.allowColumns ["name"; "email"] Scenario.opaque))).
    + simpl. discriminate.
    + simpl. intros [H|[H|[]]]; discriminate H.
  - apply (proj1 (proj2 (proj1 orderBy_allow_list "email" "desc"
             (Paginator.allowColumns ["name"; "email"] Scenario.opaque)))).
    simpl. right. right. left. reflexivity.
Defined.

(** C10. [allowColumns] changes the allow-list and nothing else; called
    after [orderBy], it leaves the column that [orderBy] settled on, and
    [paginate] does not look at the list.  In both revisions. *)
Theorem allowColumns_frame :
  (forall l this,
      Paginator.allowedColumns (Paginator.allowColumns l this) = l
      /\ Paginator.sortBy (Paginator.allowColumns l this) = Paginator.sortBy this
      /\ Paginator.sortDirection (Paginator.allowColumns l this)
         = Paginator.sortDirection this
      /\ Paginator.allowColumns (Paginator.allowedColumns this)
           (Paginator.allowColumns l this) = this)
  /\ (forall l c d this,
      Paginator.sortBy (Paginator.allowColumns l (Paginator.orderBy c d this))
      = Paginator.sortBy (Paginator.orderBy c d this))
  /\ (forall backend l n this log,
      snd (Paginator.paginate backend n (Paginator.allowColumns l this)) log
      = snd (Paginator.paginate backend n this) log)
  /\ (forall l this,
      Subquery.allowedColumns (Subquery.allowColumns l this) = l
      /\ Subquery.sortBy (Subquery.allowColumns l this) = Subquery.sortBy this
      /\ Subquery.sortDirection (Subquery.allowColumns l this)
         = Subquery.sortDirection this
      /\ Subquery.allowColumns (Subquery.allowedColumns this)
           (Subquery.allowColumns l this) = this)
  /\ (forall l c d this,
      Subquery.sortBy (Subquery.allowColumns l (Subquery.orderBy c d this))
      = Subquery.sortBy (Subquery.orderBy c d this))
  /\ (forall backend l n this log,
      snd (Subquery.paginate backend n (Subquery.allowColumns l this)) log
      = snd (Subquery.paginate backend n this) log).
Proof.
  repeat split; try reflexivity.
  - destruct this; reflexivity.
  - destruct n, this; reflexivity.
  - destruct this; reflexivity.
  - destruct n, this; reflexivity.
Qed.

(** C7 fails from [2^53] on.  Page [2^53] of size 3 has [from] and [to]
    both 27021597764222972, where [(p - 1) * k + 1] is 27021597764222974;
    a declared count of [2^54 + 12] at size 3 has the last page
    6004799503160665, one below the ceiling. *)
Lemma withSqlPagination_rounds_from_2_53 :
  let r := IEEE.withSqlPagination
             {| rowCount := Some (2 ^ 54 + 12); result_rows := @nil value |}
             3 (2 ^ 53) in
  PaginationResult.from r = of_Z 27021597764222972
  /\ PaginationResult.to r = of_Z 27021597764222972
  /\ (2 ^ 53 - 1) * 3 + 1 = 27021597764222974
  /\ PaginationResult.from r <> of_Z ((2 ^ 53 - 1) * 3 + 1)
  /\ PaginationResult.lastPage r = of_Z 6004799503160665
  /\ is_ceiling 6004799503160666 (2 ^ 54 + 12) 3
  /\ ~ is_ceiling 6004799503160665 (2 ^ 54 + 12) 3.
Proof.
  cbv zeta.
  split; [vm_compute; reflexivity|].
  split; [vm_compute; reflexivity|].
  split; [reflexivity|].
  split; [intros E; vm_compute in E; discriminate E|].
  split; [vm_compute; reflexivity|].
  unfold is_ceiling. split; lia.
Qed.

(** C7, amended.  For a page size [k >= 1] and a page [p >= 1] with
    [p * k] below [2^53], [withSqlPagination] returns the rows from
    [(p - 1) * k] up to, not including, [(p - 1) * k + k]; the total is the
    declared row count [n], whatever the number of rows; the last page is
    the ceiling of [n / k] when [n] is from 0 to below [2^53]; [from] is
    [(p - 1) * k + 1] and [to] is [(p - 1) * k] plus the number of rows
    returned.  Of 25 rows, page 3 of size 10 is the rows from the twentieth
    on, five of them, also when the declared count is not 25. *)
Theorem withSqlPagination_slice :
  forall (T : Type) (rows : list T) (n k p : Z),
    1 <= k -> 1 <= p -> p * k < 2 ^ 53 ->
    let r := IEEE.withSqlPagination
               {| rowCount := Some n; result_rows := rows |} k p in
    PaginationResult.data r
    = firstn (Z.to_nat k) (skipn (Z.to_nat ((p - 1) * k)) rows)
    /\ PaginationResult.total r = of_Z n
    /\ (0 <= n < 2 ^ 53 ->
        exists c, PaginationResult.lastPage r = of_Z c /\ is_ceiling c n k)
    /\ PaginationResult.from r = of_Z ((p - 1) * k + 1)
    /\ PaginationResult.to r
       = of_Z ((p - 1) * k + Z.of_nat (List.length (PaginationResult.data r)))
    /\ (List.length rows = 25%nat -> k = 10 -> p = 3 ->
        PaginationResult.data r = skipn 20 rows
        /\ List.length (PaginationResult.data r) = 5%nat
        /\ PaginationResult.to r = of_Z 25).
Proof.
  intros T rows n k p Hk Hp Hpk r.
  assert (H1 : safe (p - 1)) by (unfold safe; nia).
  assert (H2 : safe ((p - 1) * k)) by (unfold safe; nia).
  destruct (IEEE_offset {| rowCount := Some n; result_rows := rows |} k p H1 H2)
    as (Hdata & Hfrom & Hto).
  cbv zeta in Hdata, Hfrom, Hto. fold r in Hdata, Hfrom, Hto.
  assert (Hd : PaginationResult.data r
               = firstn (Z.to_nat k) (skipn (Z.to_nat ((p - 1) * k)) rows)).
  { rewrite Hdata by (unfold safe; nia). apply slice_window; nia. }
  assert (Hlen : Z.of_nat (List.length (PaginationResult.data r)) <= k).
  { rewrite Hd, length_firstn. lia. }
  assert (Ht : PaginationResult.to r
               = of_Z ((p - 1) * k
                       + Z.of_nat (List.length (PaginationResult.data r)))).
  { apply Hto. unfold safe. nia. }
  assert (Hrows : List.length rows = 25%nat -> k = 10 -> p = 3 ->
                  PaginationResult.data r = skipn 20 rows).
  { intros Hl -> ->. rewrite Hd. change (Z.to_nat ((3 - 1) * 10)) with 20%nat.
    apply firstn_all2. rewrite length_skipn. lia. }
  split; [exact Hd|].
  split; [reflexivity|].
  split; [intros Hn; apply ceil_div_count; lia|].
  split; [apply Hfrom; unfold safe; nia|].
  split; [exact Ht|].
  intros Hl Ek Ep. pose proof (Hrows Hl Ek Ep) as Hs.
  assert (H5 : List.length (PaginationResult.data r) = 5%nat)
    by (rewrite Hs, length_skipn; lia).
  split; [exact Hs|]. split; [exact H5|].
  rewrite Ht, H5, Ek, Ep. reflexivity.
Qed.

(** 25 rows declared as 7: page 3 of size 10 still holds rows 21 to 25. *)
Lemma withSqlPagination_slice_witness :
  let r := IEEE.withSqlPagination
             {| rowCount := Some 7; result_rows := Scenario.table 25 |} 10 3 in
  PaginationResult.data r = Scenario.rows_between 25 5 20
  /\ PaginationResult.total r = of_Z 7
  /\ PaginationResult.lastPage r = of_Z 1
  /\ PaginationResult.to r = of_Z 25.
Proof.
  destruct (withSqlPagination_slice value (Scenario.table 25) 7 10 3
              ltac:(lia) ltac:(lia) ltac:(lia))
    as (Hdata & Htotal & _ & _ & _ & Hrows).
  destruct (Hrows eq_refl eq_refl eq_refl) as (_ & _ & Hto).
  intros r.
  split; [unfold r; rewrite Hdata; reflexivity|].
  split; [exact Htotal|].
  split; [vm_compute; reflexivity | exact Hto].
Defined.

(** C9 fails from [2^53] on: page [2^53] of size 3 has [from]
    27021597764222972, not 27021597764222974, and page [-2^53] has [from]
    -27021597764222976, not -27021597764222978. *)
Lemma from_rounds_from_2_53 :
  PaginationResult.from
    (IEEE.withSqlPagination
       {| rowCount := None; result_rows := @nil value |} 3 (2 ^ 53))
  = of_Z 27021597764222972
  /\ (2 ^ 53 - 1) * 3 + 1 = 27021597764222974
  /\ PaginationResult.from
       (IEEE.withSqlPagination
          {| rowCount := None; result_rows := @nil value |} 3 (- 2 ^ 53))
     = of_Z (- 27021597764222976)
  /\ (- 2 ^ 53 - 1) * 3 + 1 = - 27021597764222978.
Proof. repeat split; vm_compute; reflexivity. Qed.

(** C9, amended.  [withSqlPagination] takes its arguments as they are: the
    current page is the page given, for every integer page, and [from] is
    [(page - 1) * perPage + 1], zero and negative values included, as long
    as [page - 1], the offset and the offset plus one are safe integers;
    page 0 of size 10 starts at -9, where the setter [page] turns 0 into
    1. *)
Theorem withSqlPagination_unclamped :
  (forall (T : Type) (queryResult : QueryResult T) (perPage page : Z),
      let r := IEEE.withSqlPagination queryResult perPage page in
      PaginationResult.currentPage r = page
      /\ PaginationResult.perPage r = perPage
      /\ (safe (page - 1) -> safe ((page - 1) * perPage) ->
          safe ((page - 1) * perPage + 1) ->
          PaginationResult.from r = of_Z ((page - 1) * perPage + 1)))
  /\ (forall (T : Type) (queryResult : QueryResult T),
      let r := IEEE.withSqlPagination queryResult 10 0 in
      PaginationResult.currentPage r = 0
      /\ PaginationResult.from r = of_Z (-9))
  /\ (forall this, Paginator.currentPage (Paginator.page 0 this) = 1).
Proof.
  split; [|split].
  - intros T qr k p r. split; [reflexivity|]. split; [reflexivity|].
    intros H1 H2 H3. now apply (IEEE_offset qr k p H1 H2).
  - intros T qr r. split; [reflexivity|]. vm_compute. reflexivity.
  - reflexivity.
Qed.

(** Page -2 of size 5 starts at -14. *)
Lemma withSqlPagination_unclamped_witness :
  let r := IEEE.withSqlPagination
             {| rowCount := Some 12; result_rows := Scenario.table 12 |}
             5 (-2) in
  PaginationResult.currentPage r = -2
  /\ PaginationResult.from r = of_Z (-14).
Proof.
  destruct (proj1 withSqlPagination_unclamped value
              {| rowCount := Some 12; result_rows := Scenario.table 12 |}
              5 (-2))
    as (Hpage & _ & Hfrom).
  split; [exact Hpage|].
  apply Hfrom; unfold safe; lia.
Defined.

(** The later revision sorts exactly when a sort column is set. *)
Lemma dataRequest_orders this :
  orders (Paginator.dataRequest this)
  = match Paginator.sortBy this with Some _ => true | None => false end.
Proof.
  unfold Paginator.dataRequest, Paginator.directOperations,
    Paginator.subqueryDataQuery.
  destruct (Paginator.direct this), (Paginator.sortBy this); reflexivity.
Qed.

(** So a paginator on which [orderBy] was never called asks for no order. *)
Lemma unordered_dataRequest this n :
  Paginator.unordered this ->
  orders (Paginator.dataRequest (Paginator.override n this)) = false.
Proof.
  intros H. rewrite dataRequest_orders.
  now rewrite (unordered_sortBy _ (Paginator.unord_paginate n this H)).
Qed.

(** C2, on [index.ts].  There the sort column starts as ["id"], and the data
    statement is built with [ORDER BY] whatever the paginator: a call of
    [paginate] on a paginator whose [orderBy] was never called issues
    [... ORDER BY id ASC LIMIT 10 OFFSET 0]. *)
Theorem index_ts_always_orders :
  (forall this offset, has_ORDER_BY (Subquery.dataQuery this offset) = true)
  /\ (forall backend n this log,
        let this' := Subquery.override n this in
        In (Subquery.dataRequest this')
           (snd (snd (Subquery.paginate backend n this) log))
        /\ orders (Subquery.dataRequest this') = true)
  /\ Subquery.new Scenario.db Scenario.relational None []
     = (Return Scenario.legacy, [])
  /\ Subquery.unordered Scenario.legacy
  /\ Subquery.dataRequest Scenario.legacy
     = Execute (Handle Scenario.db)
         [Lit "SELECT * FROM ("; Embed Scenario.relational;
          Lit ") as subquery ORDER BY "; Raw "id"; Lit " "; Raw "ASC";
          Lit " LIMIT "; Param 10; Lit " OFFSET "; Param 0].
Proof.
  split; [reflexivity|].
  split.
  - intros backend n this log this'. split; [|reflexivity].
    rewrite legacy_paginate_run. simpl. fold this'.
    apply in_or_app. right. simpl. auto.
  - split; [reflexivity|]. split; [|reflexivity].
    apply (Subquery.unord_new Scenario.db Scenario.relational None [] _ []).
    reflexivity.
Qed.

(** The constructor on a handle that is an object or a primitive value. *)
Lemma new_outcome db query cc log :
  db <> VNull -> db <> VUndefined ->
  (String.eqb (typeof (member db "execute")) "function" = false ->
   isPostgresDb db = false ->
   Paginator.new db query cc log = (Throw unsupported, log)
   /\ Subquery.new db query cc log = (Throw unsupported, log))
  /\ (String.eqb (typeof (member db "execute")) "function" = true
      \/ isPostgresDb db = true ->
      (exists this, Paginator.new db query cc log = (Return this, log))
      /\ (exists this, Subquery.new db query cc log = (Return this, log))).
Proof.
  intros Hn Hu. unfold Paginator.new, Subquery.new, bind.
  rewrite adapt_run. unfold adapted.
  split.
  - intros He Hp. destruct db; try congruence; rewrite He, Hp; auto.
  - intros H.
    destruct db; try congruence;
      (destruct (String.eqb (typeof _) "function");
       [ split; eexists; reflexivity
       | destruct H as [H|H]; [discriminate|]; rewrite H;
         split; eexists; reflexivity ]).
Qed.

(** C5, at [null] and [undefined].  Reading [execute] off the handle comes
    first and throws a [TypeError], so the constructor does not reach the
    branch that throws the error for an unsupported handle. *)
Theorem new_on_null :
  forall query cc log,
    Paginator.new VNull query cc log = (Throw TypeError, log)
    /\ Paginator.new VUndefined query cc log = (Throw TypeError, log)
    /\ Subquery.new VNull query cc log = (Throw TypeError, log)
    /\ Subquery.new VUndefined query cc log = (Throw TypeError, log)
    /\ isPostgresDb VNull = false
    /\ isPostgresDb VUndefined = false
    /\ TypeError <> unsupported.
Proof. intros. repeat split. discriminate. Qed.

Lemma totalItems_absent countResult :
  count_absent countResult -> totalItems countResult = of_Z 0.
Proof.
  unfold count_absent, totalItems. intros [H|[H|H]].
  - now rewrite H.
  - rewrite H. simpl. now rewrite andb_false_r.
  - rewrite H. simpl. now rewrite andb_false_r.
Qed.

Lemma optional_defined (v : value) (k : string) :
  optional v k <> VUndefined -> member v k = optional v k.
Proof. destruct v; simpl; congruence. Qed.

Lemma totalItems_present countResult c :
  hasRows countResult = true ->
  optional (first (rows countResult)) "count" = c ->
  c <> VUndefined ->
  totalItems countResult = Number c.
Proof.
  unfold totalItems. intros Hr Hc Hu. subst c.
  rewrite Hr, (optional_defined _ _ Hu).
  destruct (optional _ "count"); try congruence; reflexivity.
Qed.

(** What [Number] makes of a count: text that is no numeric literal is
    [NaN]; [null], blank text, [false] and the empty array are 0; a literal
    is rounded to the nearest number, and past the largest one it is
    [Infinity]. *)
Lemma Number_of_count :
  Number (VStr "abc") = NaN
  /\ Number VNull = of_Z 0
  /\ Number (VStr "") = of_Z 0
  /\ Number (VStr " ") = of_Z 0
  /\ Number (VBool false) = of_Z 0
  /\ Number (VArr []) = of_Z 0
  /\ Number (VStr "95") = of_Z 95
  /\ Number (VStr "9007199254740993") = of_Z 9007199254740992
  /\ Number (VStr "1e400") = PInf.
Proof. repeat split; vm_compute; reflexivity. Qed.

(** C6 fails for a malformed count: a count that is not numeric gives the
    total [NaN], not 0. *)
Lemma malformed_count_is_NaN :
  exists r log',
    snd (Paginator.paginate
           (Scenario.answering
              (VObj [("rows", VArr [VObj [("count", VStr "abc")]])]))
           None Scenario.opaque) []
    = (Return r, log')
    /\ PaginationResult.total r = NaN
    /\ PaginationResult.total r <> of_Z 0.
Proof.
  eexists. eexists. split; [vm_compute; reflexivity|].
  split; [reflexivity|]. discriminate.
Qed.

(** C6, amended.  When both requests are answered and the mapper returns
    on every row, [paginate] returns an envelope; its total is 0 if the
    count result has no [rows] array, no first row, or a first row without
    [count]; and a count that is there is converted by [Number], whatever
    it is: that is [NaN] for text such as ["abc"], and 0 for [null], blank
    text, [false] and the empty array. *)
Theorem count_fallback :
  forall backend n this log countResult dataResult data,
    Paginator.prepared (Paginator.override n this) = true ->
    backend log (Paginator.countRequest (Paginator.override n this))
    = Return countResult ->
    backend (log ++ [Paginator.countRequest (Paginator.override n this)])%list
            (Paginator.dataRequest (Paginator.override n this))
    = Return dataResult ->
    Paginator.pageData (Paginator.override n this) dataResult = Return data ->
    exists r log',
      snd (Paginator.paginate backend n this) log = (Return r, log')
      /\ (count_absent countResult -> PaginationResult.total r = of_Z 0)
      /\ (forall c,
            hasRows countResult = true ->
            optional (first (rows countResult)) "count" = c ->
            c <> VUndefined ->
            PaginationResult.total r = Number c)
      /\ Number (VStr "abc") = NaN
      /\ Number VNull = of_Z 0
      /\ Number (VStr "") = of_Z 0
      /\ Number (VStr " ") = of_Z 0
      /\ Number (VBool false) = of_Z 0
      /\ Number (VArr []) = of_Z 0.
Proof.
  intros backend n this log cr dr data Hp Hc Hd Hm.
  rewrite (paginate_run backend n this log Hp), Hc, Hd. simpl.
  rewrite Hm. simpl.
  eexists. eexists. split; [reflexivity|]. simpl.
  split; [apply totalItems_absent|].
  split; [apply totalItems_present|].
  repeat split; vm_compute; reflexivity.
Qed.

(** A count result without rows: the total is 0. *)
Lemma count_fallback_witness :
  exists r log',
    snd (Paginator.paginate (Scenario.answering (VObj [])) None
           Scenario.opaque) []
    = (Return r, log')
    /\ PaginationResult.total r = of_Z 0.
Proof.
  destruct (count_fallback (Scenario.answering (VObj [])) None
              Scenario.opaque [] (VObj []) (VObj [("rows", VArr [])]) []
              eq_refl eq_refl eq_refl eq_refl)
    as (r & log' & Hrun & Habsent & _).
  exists r, log'. split; [exact Hrun|].
  apply Habsent. left. reflexivity.
Defined.

End Claims.

(* ===================================================================== *)
(** ** Scenarios *)
(* ===================================================================== *)

Section Scenarios.
Import JS Drizzle Async Common.

(** 95 rows, ten to a page, page 1: rows 1 to 10 of 10 pages. *)
Example first_page :
  snd (Paginator.paginate (Scenario.store 95 (VStr "95")) None
         (Paginator.perPage 10 (Paginator.page 1 Scenario.opaque))) []
  = (Return {| PaginationResult.data := Scenario.rows_between 95 10 0;
               PaginationResult.total := of_Z 95;
               PaginationResult.perPage := 10;
               PaginationResult.currentPage := 1;
               PaginationResult.lastPage := of_Z 10;
               PaginationResult.from := of_Z 1;
               PaginationResult.to := of_Z 10 |},
     [Paginator.countRequest Scenario.opaque;
      Paginator.dataRequest Scenario.opaque]).
Proof. vm_compute. reflexivity. Qed.

(** Page 10 is the partial last page: rows 91 to 95, through the builder. *)
Example last_page :
  snd (Paginator.paginate (Scenario.store 95 (VStr "95")) (Some 10)
         (Paginator.page 10 Scenario.composable)) []
  = (Return {| PaginationResult.data := Scenario.rows_between 95 5 90;
               PaginationResult.total := of_Z 95;
               PaginationResult.perPage := 10;
               PaginationResult.currentPage := 10;
               PaginationResult.lastPage := of_Z 10;
               PaginationResult.from := of_Z 91;
               PaginationResult.to := of_Z 95 |},
     [Paginator.countRequest (Paginator.page 10 Scenario.composable);
      Paginator.dataRequest (Paginator.page 10 Scenario.composable)]).
Proof. vm_compute. reflexivity. Qed.

(** No rows at all: no pages. *)
Example no_rows :
  snd (Paginator.paginate (Scenario.store 0 (VStr "0")) None
         Scenario.opaque) []
  = (Return {| PaginationResult.data := [];
               PaginationResult.total := of_Z 0;
               PaginationResult.perPage := 10;
               PaginationResult.currentPage := 1;
               PaginationResult.lastPage := of_Z 0;
               PaginationResult.from := of_Z 1;
               PaginationResult.to := of_Z 0 |},
     [Paginator.countRequest Scenario.opaque;
      Paginator.dataRequest Scenario.opaque]).
Proof. vm_compute. reflexivity. Qed.

(** [new] builds the paginators of the scenarios, issuing nothing. *)
Example new_scenarios :
  Paginator.new Scenario.db Scenario.relational None []
  = (Return Scenario.opaque, [])
  /\ Paginator.new Scenario.db Scenario.builder None []
     = (Return Scenario.composable, [])
  /\ Paginator.dbAdapter
       (Paginator.page 2 Scenario.opaque) = Handle Scenario.db
  /\ adapted Scenario.pool = Return (ClientWrapper Scenario.pool)
  /\ Paginator.new (VNum (of_Z 5)) Scenario.relational None []
     = (Throw unsupported, []).
Proof. repeat split. Qed.

(** A builder without [orderBy] makes a sorted call throw, unissued. *)
Example sorted_without_orderBy :
  snd (Paginator.paginate (Scenario.store 95 (VStr "95")) None
         (Paginator.orderBy "name" "asc"
            {| Paginator.baseQuery :=
                 VObj [("getSQL", VFun); ("limit", VFun); ("offset", VFun)];
               Paginator.currentPage := 1;
               Paginator.itemsPerPage := 10;
               Paginator.sortBy := None;
               Paginator.sortDirection := "ASC";
               Paginator.mapper := None;
               Paginator.allowedColumns := [];
               Paginator.countColumn := "*";
               Paginator.dbAdapter := Handle Scenario.db;
               Paginator.isDirectQuery := true |})) []
  = (Throw TypeError, []).
Proof. vm_compute. reflexivity. Qed.

End Scenarios.

(* ===================================================================== *)
(** ** Further properties of the constructor, [paginate] and
       [withSqlPagination] *)
(* ===================================================================== *)

Section Construction.
Import JS Drizzle Async Common.

(** X1. A handle with a callable [execute] is used as it is, also when it
    has a [$client] with a callable [query] as well; the wrapper around
    [$client.query] is chosen only without a callable [execute].  Either
    way the paginator starts on page 1 with 10 rows to a page, no sort
    column and the count column ["*"] unless one is given, and nothing is
    issued. *)
Theorem adapter_prefers_execute :
  forall db query cc log,
    (String.eqb (typeof (member db "execute")) "function" = true ->
     exists this,
       Paginator.new db query cc log = (Return this, log)
       /\ Paginator.dbAdapter this = Handle db
       /\ Paginator.currentPage this = 1
       /\ Paginator.itemsPerPage this = 10
       /\ Paginator.sortBy this = None
       /\ Paginator.countColumn this
          = match cc with Some c => c | None => "*" end)
    /\ (String.eqb (typeof (member db "execute")) "function" = false ->
        isPostgresDb db = true ->
        exists this,
          Paginator.new db query cc log = (Return this, log)
          /\ Paginator.dbAdapter this = ClientWrapper db
          /\ Paginator.currentPage this = 1
          /\ Paginator.itemsPerPage this = 10
          /\ Paginator.sortBy this = None
          /\ Paginator.countColumn this
             = match cc with Some c => c | None => "*" end).
Proof.
  intros db query cc log. unfold Paginator.new, bind.
  rewrite adapt_run. unfold adapted. split.
  - intros He. destruct db; try discriminate He; rewrite He;
      eexists; (split; [reflexivity|]); simpl; auto 10.
  - intros He Hp. destruct db; try discriminate Hp; rewrite He, Hp;
      eexists; (split; [reflexivity|]); simpl; auto 10.
Qed.

(** A handle with both members is used through [execute]; a pool, which
    has [$client.query] only, is wrapped, and starts on page 1 as well. *)
Lemma adapter_prefers_execute_witness :
  (exists this,
      Paginator.new
        (VObj [("$client", VObj [("query", VFun)]); ("execute", VFun)])
        Scenario.relational (Some "id") []
      = (Return this, [])
      /\ Paginator.dbAdapter this
         = Handle (VObj [("$client", VObj [("query", VFun)]); ("execute", VFun)]))
  /\ (exists this,
        Paginator.new Scenario.pool Scenario.relational None []
        = (Return this, [])
        /\ Paginator.dbAdapter this = ClientWrapper Scenario.pool
        /\ Paginator.currentPage this = 1
        /\ Paginator.itemsPerPage this = 10
        /\ Paginator.sortBy this = None
        /\ Paginator.countColumn this = "*").
Proof.
  split.
  - destruct (proj1 (adapter_prefers_execute
                       (VObj [("$client", VObj [("query", VFun)]); ("execute", VFun)])
                       Scenario.relational (Some "id") []) eq_refl)
      as (this & Hnew & Had & _).
    exists this. split; [exact Hnew | exact Had].
  - exact (proj2 (adapter_prefers_execute Scenario.pool Scenario.relational
                    None []) eq_refl eq_refl).
Defined.

(** X2. What a program has built and configured keeps the classification
    of its query: [isDirectQuery] is [isDrizzleQueryBuilder] of the query
    the paginator holds, through every setter and every call of
    [paginate]. *)
Theorem classification_is_kept :
  forall this,
    Paginator.reachable this ->
    Paginator.isDirectQuery this
    = Paginator.isDrizzleQueryBuilder (Paginator.baseQuery this)
    /\ Paginator.direct this = Paginator.isDirectQuery this.
Proof.
  intros this H.
  assert (E : Paginator.isDirectQuery this
              = Paginator.isDrizzleQueryBuilder (Paginator.baseQuery this)).
  { induction H as [db q cc log this log' H| | | | | |[n|] this _ IH];
      simpl; auto.
    unfold Paginator.new, bind in H. rewrite adapt_run in H.
    destruct (adapted db); inversion H. reflexivity. }
  split; [exact E|]. unfold Paginator.direct. rewrite <- E.
  now destruct (Paginator.isDirectQuery this).
Qed.

Lemma classification_is_kept_witness :
  Paginator.isDirectQuery (Paginator.page 3 Scenario.composable) = true.
Proof.
  rewrite (proj1 (classification_is_kept (Paginator.page 3 Scenario.composable)
             (Paginator.reach_page 3 _
                (Paginator.reach_new Scenario.db Scenario.builder None []
                   Scenario.composable [] eq_refl)))).
  reflexivity.
Defined.

End Construction.

Section Calls.
Import JS Drizzle Async Common Laws Observe.

(** X5. The page size given to [paginate] stays: the call without an
    argument that follows is the call with that size again, and a call
    without an argument leaves the paginator as it was. *)
Theorem override_persists :
  forall backend n this,
    fst (Paginator.paginate backend None this) = this
    /\ Paginator.itemsPerPage (fst (Paginator.paginate backend (Some n) this))
       = Z.max 1 n
    /\ (forall log,
          snd (Paginator.paginate backend None
                 (fst (Paginator.paginate backend (Some n) this))) log
          = snd (Paginator.paginate backend (Some n) this) log)
    /\ fst (Paginator.paginate backend None
              (fst (Paginator.paginate backend (Some n) this)))
       = fst (Paginator.paginate backend (Some n) this).
Proof. intros. repeat split. Qed.

Lemma map_rows_length (f : MapperFunction) (items data : list value) :
  map_rows f items = Return data -> List.length data = List.length items.
Proof.
  revert data. induction items as [|row rest IH]; simpl; intros data H.
  - now inversion H.
  - destruct (f row) as [item|e]; [|discriminate].
    destruct (map_rows f rest) as [others|e]; [|discriminate].
    inversion H. simpl. now rewrite (IH others).
Qed.

(** A mapper that returns on every row maps them all. *)
Lemma map_rows_returns (f : MapperFunction) (g : value -> value) items :
  returns f g -> map_rows f items = Return (List.map g items).
Proof.
  intros H. induction items as [|row rest IH]; simpl; [reflexivity|].
  now rewrite H, IH.
Qed.

(** The first throw of the mapper is what [map] throws. *)
Lemma map_rows_throws (f : MapperFunction) (g : value -> value)
    (before after : list value) (row : value) (e : error) :
  (forall x, In x before -> f x = Return (g x)) ->
  f row = Throw e ->
  map_rows f (before ++ row :: after)%list = Throw e.
Proof.
  intros Hb Hr. induction before as [|x before IH]; simpl.
  - now rewrite Hr.
  - rewrite (Hb x (or_introl eq_refl)), IH; [reflexivity|].
    intros y Hy. apply Hb. now right.
Qed.

(** X6. The mapper touches the rows and nothing else: with a mapper [f]
    installed on a paginator that had none, [paginate] issues the same
    requests, and throws the same error where the call without the mapper
    throws; where that call returns an envelope, [f] goes over its rows in
    order, and the call returns the same envelope with the mapped rows if
    [f] returns on every row, and throws what [f] throws on the first row
    it throws on.  Of two mappers installed one after the other, only the
    second is applied. *)
Theorem mapper_maps_the_rows :
  (forall backend n this log f,
      Paginator.mapper this = None ->
      snd (Paginator.paginate backend n (Paginator.map f this)) log
      = (map_data f (fst (snd (Paginator.paginate backend n this) log)),
         snd (snd (Paginator.paginate backend n this) log)))
  /\ (forall f g, returns f g ->
        forall r, map_data f (Return r)
                  = Return (with_data r (List.map g (PaginationResult.data r))))
  /\ (forall f g r before row after e,
        PaginationResult.data r = (before ++ row :: after)%list ->
        (forall x, In x before -> f x = Return (g x)) ->
        f row = Throw e ->
        map_data f (Return r) = Throw e)
  /\ (forall f g this,
        Paginator.map g (Paginator.map f this) = Paginator.map g this).
Proof.
  split; [|split; [|split]]; [| | |reflexivity].
  - intros backend n this log f Hm.
    assert (Hprep : Paginator.prepared (Paginator.override n (Paginator.map f this))
                    = Paginator.prepared (Paginator.override n this))
      by (destruct n; reflexivity).
    destruct (Paginator.prepared (Paginator.override n this)) eqn:Hp.
    + rewrite (paginate_run backend n _ log Hprep),
        (paginate_run backend n this log Hp).
      assert (Hc : Paginator.countRequest (Paginator.override n (Paginator.map f this))
                   = Paginator.countRequest (Paginator.override n this))
        by (destruct n; reflexivity).
      assert (Hd : Paginator.dataRequest (Paginator.override n (Paginator.map f this))
                   = Paginator.dataRequest (Paginator.override n this))
        by (destruct n; reflexivity).
      rewrite Hc, Hd. cbn [fst snd]. f_equal.
      destruct (backend log _) as [cr|e]; [|reflexivity].
      destruct (backend (log ++ _)%list _) as [dr|e]; [|reflexivity].
      cbn [settle].
      assert (Hdata : exists items,
                 Paginator.pageData (Paginator.override n this) dr = Return items
                 /\ Paginator.pageData
                      (Paginator.override n (Paginator.map f this)) dr
                    = map_rows f items).
      { unfold Paginator.pageData.
        replace (Paginator.direct (Paginator.override n (Paginator.map f this)))
          with (Paginator.direct (Paginator.override n this))
          by (destruct n; reflexivity).
        replace (Paginator.mapper (Paginator.override n (Paginator.map f this)))
          with (Some f) by (destruct n; reflexivity).
        replace (Paginator.mapper (Paginator.override n this))
          with (@None MapperFunction) by (destruct n; simpl; congruence).
        destruct (Paginator.direct _), dr; simpl;
          try destruct (hasRows _); eexists; split; reflexivity. }
      destruct Hdata as (items & -> & ->). cbn [and_then map_data].
      cbn [PaginationResult.data envelope].
      destruct (map_rows f items) as [data|e] eqn:E; [|reflexivity].
      f_equal. unfold envelope, with_data. simpl.
      rewrite (map_rows_length f items data E).
      f_equal; destruct n; reflexivity.
    + rewrite (paginate_unprepared backend n _ log Hprep),
        (paginate_unprepared backend n this log Hp). reflexivity.
  - intros f g H r. unfold map_data. now rewrite (map_rows_returns f g _ H).
  - intros f g r before row after e Hd Hb Hr. unfold map_data.
    now rewrite Hd, (map_rows_throws f g before after row e Hb Hr).
Qed.

(** The ids of the first page; and a mapper that throws on the third row
    makes the call throw, both requests having gone out. *)
Lemma mapper_maps_the_rows_witness :
  snd (Paginator.paginate (Scenario.store 95 (VStr "95")) None
         (Paginator.map (fun row => Return (member row "id")) Scenario.opaque)) []
  = (Return
       {| PaginationResult.data :=
            List.map (fun row => member row "id") (Scenario.rows_between 95 10 0);
          PaginationResult.total := of_Z 95;
          PaginationResult.perPage := 10;
          PaginationResult.currentPage := 1;
          PaginationResult.lastPage := of_Z 10;
          PaginationResult.from := of_Z 1;
          PaginationResult.to := of_Z 10 |},
     [Paginator.countRequest Scenario.opaque;
      Paginator.dataRequest Scenario.opaque]).
Proof.
  rewrite (proj1 mapper_maps_the_rows (Scenario.store 95 (VStr "95")) None
             Scenario.opaque [] (fun row => Return (member row "id")) eq_refl).
  vm_compute. reflexivity.
Defined.

(** X7. A data result that is a bare array of rows is read by the branch
    for query builders only, where its rows go through the mapper: the call
    returns them mapped, or throws what the mapper throws.  The subquery
    branch, which looks for a [rows] member, returns no rows for it and
    runs no mapper.  The total comes from the count in both. *)
Theorem bare_array_of_rows :
  forall backend n this log countResult items,
    let this' := Paginator.override n this in
    Paginator.prepared this' = true ->
    backend log (Paginator.countRequest this') = Return countResult ->
    backend (log ++ [Paginator.countRequest this'])%list
            (Paginator.dataRequest this') = Return (VArr items) ->
    (Paginator.direct this' = false ->
     exists r log',
       snd (Paginator.paginate backend n this) log = (Return r, log')
       /\ PaginationResult.total r = totalItems countResult
       /\ PaginationResult.data r = [])
    /\ (Paginator.direct this' = true ->
        forall data,
          mapped (Paginator.mapper this') items = Return data ->
          exists r log',
            snd (Paginator.paginate backend n this) log = (Return r, log')
            /\ PaginationResult.total r = totalItems countResult
            /\ PaginationResult.data r = data)
    /\ (Paginator.direct this' = true ->
        forall e,
          mapped (Paginator.mapper this') items = Throw e ->
          fst (snd (Paginator.paginate backend n this) log) = Throw e).
Proof.
  intros backend n this log cr items this' Hp Hc Hd.
  rewrite (paginate_run backend n this log Hp). fold this'.
  rewrite Hc, Hd. cbn [settle fst snd]. unfold Paginator.pageData.
  split; [|split].
  - intros ->. simpl. eexists. eexists. split; [reflexivity|].
    split; reflexivity.
  - intros -> data ->. simpl. eexists. eexists. split; [reflexivity|].
    split; reflexivity.
  - intros -> e ->. reflexivity.
Qed.

Lemma bare_array_of_rows_witness :
  exists r log',
    snd (Paginator.paginate
           (Scenario.serving (Scenario.counted (VStr "3")) Scenario.three_rows)
           None Scenario.composable) []
    = (Return r, log')
    /\ PaginationResult.total r = of_Z 3
    /\ PaginationResult.data r = Scenario.three_rows.
Proof.
  destruct (proj1 (proj2 (bare_array_of_rows
              (Scenario.serving (Scenario.counted (VStr "3")) Scenario.three_rows)
              None Scenario.composable []
              (Scenario.counted (VStr "3"))
              Scenario.three_rows eq_refl eq_refl eq_refl))
              eq_refl Scenario.three_rows eq_refl)
    as (r & log' & Hrun & Htotal & Hdata).
  exists r, log'. split; [exact Hrun|]. split; [|exact Hdata].
  rewrite Htotal. vm_compute. reflexivity.
Defined.

(** X25. A failure of the store reaches the caller as it is: when one of
    the two requests fails with an error and the other is answered, the
    call of [paginate] throws that very error; when both fail, it throws
    one of the two errors.  In both revisions. *)
Theorem failures_propagate_unchanged :
  (forall backend n this log e,
      let this' := Paginator.override n this in
      let count := backend log (Paginator.countRequest this') in
      let data := backend (log ++ [Paginator.countRequest this'])%list
                          (Paginator.dataRequest this') in
      let outcome := fst (snd (Paginator.paginate backend n this) log) in
      Paginator.prepared this' = true ->
      (count = Throw e -> (exists v, data = Return v) -> outcome = Throw e)
      /\ ((exists v, count = Return v) -> data = Throw e -> outcome = Throw e)
      /\ (forall e', count = Throw e -> data = Throw e' ->
          outcome = Throw e \/ outcome = Throw e'))
  /\ (forall backend n this log e,
      let this' := Subquery.override n this in
      let count := backend log (Subquery.countRequest this') in
      let data := backend (log ++ [Subquery.countRequest this'])%list
                          (Subquery.dataRequest this') in
      let outcome := fst (snd (Subquery.paginate backend n this) log) in
      (count = Throw e -> (exists v, data = Return v) -> outcome = Throw e)
      /\ ((exists v, count = Return v) -> data = Throw e -> outcome = Throw e)
      /\ (forall e', count = Throw e -> data = Throw e' ->
          outcome = Throw e \/ outcome = Throw e')).
Proof.
  split.
  - intros backend n this log e this' count data outcome Hp.
    unfold outcome. rewrite (paginate_run backend n this log Hp).
    fold this' count data. cbn [fst].
    split; [|split].
    + intros -> (v & ->). reflexivity.
    + intros (v & ->) ->. reflexivity.
    + intros e' -> ->. now left.
  - intros backend n this log e this' count data outcome.
    unfold outcome. rewrite legacy_paginate_run.
    fold this' count data. cbn [fst].
    split; [|split].
    + intros -> (v & ->). reflexivity.
    + intros (v & ->) ->. reflexivity.
    + intros e' -> ->. now left.
Qed.

(** A store that answers the count and loses the connection on the rows. *)
Lemma failures_propagate_unchanged_witness :
  fst (snd (Paginator.paginate
              (fun _ r => match r with
                          | Await _ _ =>
                              Throw (Rejection (VStr "connection lost"))
                          | _ => Return (Scenario.counted (VStr "3"))
                          end)
              None Scenario.composable) [])
  = Throw (Rejection (VStr "connection lost")).
Proof.
  apply (proj1 (proj2 (proj1 failures_propagate_unchanged
           (fun _ r => match r with
                       | Await _ _ =>
                           Throw (Rejection (VStr "connection lost"))
                       | _ => Return (Scenario.counted (VStr "3"))
                       end)
           None Scenario.composable []
           (Rejection (VStr "connection lost")) eq_refl))).
  - exists (Scenario.counted (VStr "3")). reflexivity.
  - reflexivity.
Defined.

End Calls.

Section Windows.
Import JS Drizzle Async Common Laws Observe.



(** X9. Pages tile, as long as the next page starts below [2^53]: the
    envelope of page [p + 1] starts one page size after that of page [p],
    and right after its last row when page [p] is full. *)
Theorem pages_tile :
  forall backend backend' n this p log1 log2 r1 r2 log1' log2',
    Paginator.reachable this ->
    1 <= p ->
    snd (Paginator.paginate backend n (Paginator.page p this)) log1
    = (Return r1, log1') ->
    snd (Paginator.paginate backend' n (Paginator.page (p + 1) this)) log2
    = (Return r2, log2') ->
    p * PaginationResult.perPage r1 + 1 < 2 ^ 53 ->
    PaginationResult.perPage r2 = PaginationResult.perPage r1
    /\ PaginationResult.from r2
       = add (PaginationResult.from r1) (of_Z (PaginationResult.perPage r1))
    /\ (Z.of_nat (List.length (PaginationResult.data r1))
        = PaginationResult.perPage r1 ->
        PaginationResult.from r2 = add (PaginationResult.to r1) (of_Z 1)).
Proof.
  intros backend backend' n this p log1 log2 r1 r2 log1' log2' Hr Hp H1 H2.
  apply paginate_Return in H1 as (cr1 & dr1 & data1 & _ & _ & _ & _ & ->).
  apply paginate_Return in H2 as (cr2 & dr2 & data2 & _ & _ & _ & _ & ->).
  assert (Hk : Paginator.itemsPerPage (Paginator.override n (Paginator.page (p + 1) this))
               = Paginator.itemsPerPage (Paginator.override n (Paginator.page p this)))
    by (destruct n; reflexivity).
  assert (Hc1 : Paginator.currentPage (Paginator.override n (Paginator.page p this)) = p)
    by (destruct n; simpl; unfold Math_max; lia).
  assert (Hc2 : Paginator.currentPage (Paginator.override n (Paginator.page (p + 1) this))
                = p + 1)
    by (destruct n; simpl; unfold Math_max; lia).
  destruct (reachable_positive _
              (Paginator.reach_paginate n _ (Paginator.reach_page p this Hr)))
    as [_ Hk1].
  unfold envelope, Paginator.offset.
  cbn [PaginationResult.perPage PaginationResult.from PaginationResult.to
       PaginationResult.data].
  rewrite Hk, Hc1, Hc2.
  set (k := Paginator.itemsPerPage (Paginator.override n (Paginator.page p this)))
    in *.
  intros Hb.
  rewrite !offsetOf_Z by (unfold safe; nia).
  split; [reflexivity|]. split.
  - rewrite !add_Z by (unfold safe; nia). f_equal. lia.
  - intros Hl. rewrite !add_Z by (unfold safe; nia). f_equal. lia.
Qed.

Lemma pages_tile_witness :
  PaginationResult.from
    {| PaginationResult.data := Scenario.rows_between 95 10 10;
       PaginationResult.total := of_Z 95;
       PaginationResult.perPage := 10;
       PaginationResult.currentPage := 2;
       PaginationResult.lastPage := of_Z 10;
       PaginationResult.from := of_Z 11;
       PaginationResult.to := of_Z 20 |}
  = add (PaginationResult.to
      {| PaginationResult.data := Scenario.rows_between 95 10 0;
         PaginationResult.total := of_Z 95;
         PaginationResult.perPage := 10;
         PaginationResult.currentPage := 1;
         PaginationResult.lastPage := of_Z 10;
         PaginationResult.from := of_Z 1;
         PaginationResult.to := of_Z 10 |}) (of_Z 1).
Proof.
  apply (pages_tile (Scenario.store 95 (VStr "95")) (Scenario.store 95 (VStr "95"))
           None Scenario.opaque 1 [] [] _ _
           [Paginator.countRequest (Paginator.page 1 Scenario.opaque);
            Paginator.dataRequest (Paginator.page 1 Scenario.opaque)]
           [Paginator.countRequest (Paginator.page 2 Scenario.opaque);
            Paginator.dataRequest (Paginator.page 2 Scenario.opaque)]
           (Paginator.reach_new Scenario.db Scenario.relational None []
              Scenario.opaque [] eq_refl)
           ltac:(lia) ltac:(vm_compute; reflexivity)
           ltac:(vm_compute; reflexivity) ltac:(vm_compute; reflexivity)).
  reflexivity.
Defined.

(** X10. The count does not depend on the page: against a store whose
    answers do not depend on what was issued before, the envelopes of any
    two pages of one paginator carry the same total and the same last
    page. *)
Theorem total_is_the_same_on_every_page :
  forall backend n this p q log1 log2 r1 r2 log1' log2',
    stateless backend ->
    snd (Paginator.paginate backend n (Paginator.page p this)) log1
    = (Return r1, log1') ->
    snd (Paginator.paginate backend n (Paginator.page q this)) log2
    = (Return r2, log2') ->
    PaginationResult.total r1 = PaginationResult.total r2
    /\ PaginationResult.lastPage r1 = PaginationResult.lastPage r2.
Proof.
  intros backend n this p q log1 log2 r1 r2 log1' log2' Hs H1 H2.
  apply paginate_Return in H1 as (cr1 & dr1 & data1 & Hc1 & _ & _ & _ & ->).
  apply paginate_Return in H2 as (cr2 & dr2 & data2 & Hc2 & _ & _ & _ & ->).
  assert (Hreq : Paginator.countRequest (Paginator.override n (Paginator.page p this))
                 = Paginator.countRequest (Paginator.override n (Paginator.page q this)))
    by (destruct n; reflexivity).
  rewrite Hreq, (Hs log1 log2), Hc2 in Hc1. inversion Hc1; subst.
  assert (Hk : Paginator.itemsPerPage (Paginator.override n (Paginator.page p this))
               = Paginator.itemsPerPage (Paginator.override n (Paginator.page q this)))
    by (destruct n; reflexivity).
  unfold envelope. simpl. rewrite Hk. split; reflexivity.
Qed.

Lemma total_is_the_same_on_every_page_witness :
  of_Z 95 = of_Z 95 /\ of_Z 10 = of_Z 10.
Proof.
  exact (total_is_the_same_on_every_page (Scenario.store 95 (VStr "95")) None
           Scenario.opaque 2 7 [] [] _ _ _ _
           (fun _ _ _ => eq_refl)
           ltac:(vm_compute; reflexivity) ltac:(vm_compute; reflexivity)).
Defined.

End Windows.

Section Revisions.
Import JS Drizzle Async Common Laws Observe.

(** X11. On a query that can only be embedded, the later revision with a
    sort column set does what [index.ts] does: seen as a paginator of the
    later revision, a paginator of [index.ts] issues the same two
    statements, returns the same envelope or throws the same error, and
    stays so under every setter. *)
Theorem revisions_agree_once_sorted :
  (forall backend n this log,
      snd (Paginator.paginate backend n (upgrade this)) log
      = snd (Subquery.paginate backend n this) log)
  /\ (forall backend n this,
        fst (Paginator.paginate backend n (upgrade this))
        = upgrade (fst (Subquery.paginate backend n this)))
  /\ (forall this c d n l f,
        upgrade (Subquery.orderBy c d this) = Paginator.orderBy c d (upgrade this)
        /\ upgrade (Subquery.page n this) = Paginator.page n (upgrade this)
        /\ upgrade (Subquery.perPage n this) = Paginator.perPage n (upgrade this)
        /\ upgrade (Subquery.allowColumns l this)
           = Paginator.allowColumns l (upgrade this)
        /\ upgrade (Subquery.map f this) = Paginator.map f (upgrade this))
  /\ (forall db query cc c d log this log',
        Paginator.isDrizzleQueryBuilder query = false ->
        Subquery.new db query cc log = (Return this, log') ->
        exists this0,
          Paginator.new db query cc log = (Return this0, log')
          /\ Paginator.orderBy c d this0 = upgrade (Subquery.orderBy c d this)).
Proof.
  split; [|split; [|split]].
  - intros backend n this log.
    assert (Hp : Paginator.prepared (Paginator.override n (upgrade this)) = true)
      by (destruct n; reflexivity).
    rewrite (paginate_run backend n (upgrade this) log Hp),
      legacy_paginate_run.
    destruct n; reflexivity.
  - intros backend [n|] this; reflexivity.
  - intros. repeat split.
  - intros db query cc c d log this log' Hq.
    unfold Subquery.new, Paginator.new, bind. rewrite adapt_run.
    destruct (adapted db) as [a|e]; intros H; inversion H; subst.
    eexists. split; [reflexivity|].
    unfold Paginator.orderBy, upgrade, Subquery.orderBy. simpl.
    now rewrite Hq.
Qed.

Lemma revisions_agree_once_sorted_witness :
  exists this0,
    Paginator.new Scenario.db Scenario.relational None [] = (Return this0, [])
    /\ Paginator.orderBy "name" "desc" this0
       = upgrade (Subquery.orderBy "name" "desc" Scenario.legacy).
Proof.
  exact (proj2 (proj2 (proj2 revisions_agree_once_sorted))
           Scenario.db Scenario.relational None "name" "desc" []
           Scenario.legacy [] eq_refl eq_refl).
Defined.

Lemma lower_of_upper_char (c : ascii) :
  toLowerCase_char (toUpperCase_char c) = toLowerCase_char c.
Proof.
  destruct c as [[] [] [] [] [] [] [] []]; reflexivity.
Qed.

Lemma lower_of_upper (s : string) : toLowerCase (toUpperCase s) = toLowerCase s.
Proof.
  unfold toLowerCase, toUpperCase.
  induction s as [|c s IH]; simpl; [reflexivity|].
  now rewrite lower_of_upper_char, IH.
Qed.

(** X12. The direction survives the trip through the paginator: [orderBy]
    keeps it in upper case, the branch for query builders hands it to the
    builder in lower case, and that is the direction given, in lower case;
    ["asc"] and ["desc"] arrive as they were given.  The column arrives as
    a raw fragment, before the limit and the offset. *)
Theorem direction_round_trip :
  forall c d this off,
    seven_bit d = true ->
    exists column,
      Paginator.sortBy (Paginator.orderBy c d this) = Some column
      /\ Paginator.directOperations (Paginator.orderBy c d this) off
         = [orderBy_op [Raw column] (toLowerCase d);
            limit_op (Paginator.itemsPerPage this); offset_op off]
      /\ toLowerCase "asc" = "asc"
      /\ toLowerCase "desc" = "desc".
Proof.
  intros c d this off _. eexists. split; [reflexivity|].
  unfold Paginator.directOperations. simpl. rewrite lower_of_upper.
  repeat split.
Qed.

Lemma direction_round_trip_witness :
  Paginator.directOperations
    (Paginator.orderBy "name" "desc" Scenario.composable) 20
  = [orderBy_op [Raw "name"] "desc"; limit_op 10; offset_op 20].
Proof.
  destruct (direction_round_trip "name" "desc" Scenario.composable 20 eq_refl)
    as (column & Hs & Hops & _).
  inversion Hs. subst column. exact Hops.
Defined.

(** X13. With an allow-list that is not empty, no other column than one of
    the list or ["id"] reaches the statement: after [allowColumns(l)] and
    [orderBy(c, d)], the subquery branch orders by a raw column that is in
    [l] or is ["id"], followed by [d] in upper case as a raw fragment. *)
Theorem only_allowed_columns_are_sorted_on :
  forall l c d this off,
    l <> [] ->
    let this' := Paginator.orderBy c d (Paginator.allowColumns l this) in
    exists column,
      (In column l \/ column = "id")
      /\ Paginator.sortBy this' = Some column
      /\ Paginator.subqueryDataQuery this' off
         = [Lit "SELECT * FROM ("; Embed (Paginator.baseQuery this);
            Lit ") as subquery ORDER BY "; Raw column; Lit " ";
            Raw (toUpperCase d); Lit " LIMIT ";
            Param (Paginator.itemsPerPage this); Lit " OFFSET "; Param off].
Proof.
  intros l c d this off Hl this'.
  destruct (includes l c) eqn:E.
  - exists c. split; [left; now apply includes_In|].
    unfold this', Paginator.subqueryDataQuery. simpl.
    rewrite E, orb_true_r. split; reflexivity.
  - exists "id". split; [now right|].
    unfold this', Paginator.subqueryDataQuery. simpl. rewrite E.
    destruct l; [contradiction|]. split; reflexivity.
Qed.

Lemma only_allowed_columns_are_sorted_on_witness :
  exists column,
    (In column ["name"; "email"] \/ column = "id")
    /\ Paginator.sortBy
         (Paginator.orderBy "1; DROP TABLE users" "asc"
            (Paginator.allowColumns ["name"; "email"] Scenario.opaque))
       = Some column.
Proof.
  destruct (only_allowed_columns_are_sorted_on ["name"; "email"]
              "1; DROP TABLE users" "asc" Scenario.opaque 0
              ltac:(discriminate))
    as (column & Hin & Hs & _).
  exists column. split; [exact Hin | exact Hs].
Defined.

End Revisions.

Section RawResults.
Import JS Drizzle Async Common Laws Observe.

Context {T : Type}.

Lemma firstn_plus (a b : nat) (l : list T) :
  firstn (a + b) l = (firstn a l ++ firstn b (skipn a l))%list.
Proof.
  revert l. induction a as [|a IH]; intros [|x l]; simpl;
    try reflexivity.
  - now rewrite firstn_nil.
  - now rewrite IH.
Qed.

(** The rows [withSqlPagination] returns, for a page from 1 on. *)
Lemma data_of_page (queryResult : QueryResult T) (k p : Z) :
  0 <= k -> 1 <= p ->
  PaginationResult.data (withSqlPagination queryResult k p)
  = firstn (Z.to_nat k) (skipn (Z.to_nat ((p - 1) * k)) (result_rows queryResult)).
Proof.
  intros Hk Hp. unfold withSqlPagination. simpl. apply slice_window; nia.
Qed.

Lemma pages_up_to (queryResult : QueryResult T) (k : Z) (m : nat) :
  0 <= k ->
  flat_map (fun p => PaginationResult.data (withSqlPagination queryResult k p))
           (page_numbers m)
  = firstn (m * Z.to_nat k) (result_rows queryResult).
Proof.
  intros Hk. unfold page_numbers.
  induction m as [|m IH].
  - reflexivity.
  - rewrite seq_S, map_app, flat_map_app, IH. cbn [List.map flat_map].
    rewrite app_nil_r, data_of_page by lia.
    replace (Z.to_nat ((Z.of_nat (1 + m) - 1) * k)) with (m * Z.to_nat k)%nat
      by nia.
    change (S m * Z.to_nat k)%nat with (Z.to_nat k + m * Z.to_nat k)%nat.
    replace (Z.to_nat k + m * Z.to_nat k)%nat with (m * Z.to_nat k + Z.to_nat k)%nat
      by lia.
    now rewrite firstn_plus.
Qed.

(** X14. The pages of [withSqlPagination] partition the rows: for a page
    size of at least 1, the rows of pages 1 to [m], one after the other,
    are the rows given, as soon as [m] pages can hold them. *)
Theorem pages_partition_the_rows :
  forall (queryResult : QueryResult T) (k : Z) (m : nat),
    1 <= k ->
    Z.of_nat (List.length (result_rows queryResult)) <= Z.of_nat m * k ->
    flat_map (fun p => PaginationResult.data (withSqlPagination queryResult k p))
             (page_numbers m)
    = result_rows queryResult.
Proof.
  intros qr k m Hk Hm. rewrite pages_up_to by lia.
  apply firstn_all2. nia.
Qed.

(** X15. [withSqlPagination] returns a run of consecutive rows of its
    input, whatever the page and the page size, negative ones included;
    and never more than the page size when that is at least 0. *)
Theorem rows_are_a_run :
  forall (queryResult : QueryResult T) (k p : Z),
    let r := withSqlPagination queryResult k p in
    (exists before after,
        result_rows queryResult
        = (before ++ PaginationResult.data r ++ after)%list)
    /\ (0 <= k -> Z.of_nat (List.length (PaginationResult.data r)) <= k).
Proof.
  intros qr k p r. unfold r, withSqlPagination, Slice.slice. simpl.
  set (rows := result_rows qr).
  set (len := Z.of_nat (List.length rows)).
  set (s := Slice.relative len ((p - 1) * k)).
  set (e := Slice.relative len ((p - 1) * k + k)).
  split.
  - exists (firstn (Z.to_nat s) rows),
           (skipn (Z.to_nat (Z.max (e - s) 0)) (skipn (Z.to_nat s) rows)).
    now rewrite firstn_skipn, firstn_skipn.
  - intros Hk. rewrite length_firstn, length_skipn.
    assert (Hlen : 0 <= len) by (unfold len; lia).
    assert (Hes : e - s <= k \/ Z.of_nat (List.length rows) <= s).
    { unfold s, e, Slice.relative.
      destruct ((p - 1) * k <? 0) eqn:E1, ((p - 1) * k + k <? 0) eqn:E2;
        fold len; lia. }
    destruct Hes; lia.
Qed.

End RawResults.

Lemma pages_partition_the_rows_witness :
  flat_map (fun p => PaginationResult.data
                       (Common.withSqlPagination
                          {| Common.rowCount := Some 25;
                             Common.result_rows := Scenario.table 25 |} 10 p))
           (Observe.page_numbers 3)
  = Scenario.table 25.
Proof.
  apply (pages_partition_the_rows
           {| Common.rowCount := Some 25;
              Common.result_rows := Scenario.table 25 |} 10 3).
  - lia.
  - change (25 <= 3 * 10). lia.
Defined.

Lemma rows_are_a_run_witness :
  Z.of_nat (List.length
              (PaginationResult.data
                 (Common.withSqlPagination
                    {| Common.rowCount := Some 25;
                       Common.result_rows := Scenario.table 25 |} 10 (-1))))
  <= 10.
Proof.
  apply (proj2 (rows_are_a_run
                  {| Common.rowCount := Some 25;
                     Common.result_rows := Scenario.table 25 |} 10 (-1))).
  lia.
Defined.

Section RawResultEdges.
Import JS Drizzle Async Common Laws Observe.

Context {T : Type}.

Lemma data_is_slice (queryResult : QueryResult T) (k p : Z) :
  PaginationResult.data (withSqlPagination queryResult k p)
  = Slice.slice (result_rows queryResult) ((p - 1) * k) ((p - 1) * k + k).
Proof. reflexivity. Qed.

Lemma bounds_of_envelope (queryResult : QueryResult T) (k p : Z) :
  PaginationResult.from (withSqlPagination queryResult k p)
  = of_Z ((p - 1) * k + 1)
  /\ PaginationResult.to (withSqlPagination queryResult k p)
     = of_Z ((p - 1) * k
             + Z.of_nat (List.length
                           (PaginationResult.data
                              (withSqlPagination queryResult k p)))).
Proof. split; reflexivity. Qed.

Lemma slice_nil (items : list T) (s e : Z) :
  Slice.relative (Z.of_nat (List.length items)) e
  <= Slice.relative (Z.of_nat (List.length items)) s ->
  Slice.slice items s e = [].
Proof.
  intros H. unfold Slice.slice.
  replace (Z.to_nat (Z.max _ 0)) with 0%nat by lia. reflexivity.
Qed.

(** X16. Page 0 is empty for every page size, and so is every page that
    starts at or after the end of the rows. *)
Theorem pages_outside_are_empty :
  forall (queryResult : QueryResult T) (k p : Z),
    let r := withSqlPagination queryResult k p in
    (p = 0 -> PaginationResult.data r = [])
    /\ (0 <= k -> 1 <= p ->
        Z.of_nat (List.length (result_rows queryResult)) <= (p - 1) * k ->
        PaginationResult.data r = []).
Proof.
  intros qr k p r. split.
  - intros Hp. unfold r. rewrite data_is_slice. apply slice_nil.
    unfold Slice.relative.
    destruct ((p - 1) * k <? 0) eqn:E1, ((p - 1) * k + k <? 0) eqn:E2; nia.
  - intros Hk Hp Hlen. unfold r. rewrite data_of_page by lia.
    rewrite skipn_all2 by lia. apply firstn_nil.
Qed.

(** X17. A negative page counts from the end: with a page size [k >= 1]
    and enough rows, page [p < 0] holds the [k] rows that start
    [(1 - p) * k] before the end. *)
Theorem negative_page_counts_from_the_end :
  forall (queryResult : QueryResult T) (k p : Z),
    1 <= k -> p < 0 ->
    (1 - p) * k <= Z.of_nat (List.length (result_rows queryResult)) ->
    PaginationResult.data (withSqlPagination queryResult k p)
    = firstn (Z.to_nat k)
        (skipn (Z.to_nat (Z.of_nat (List.length (result_rows queryResult))
                          - (1 - p) * k))
               (result_rows queryResult)).
Proof.
  intros qr k p Hk Hp Hlen.
  rewrite data_is_slice. unfold Slice.slice, Slice.relative.
  set (len := Z.of_nat (List.length (result_rows qr))) in *.
  destruct ((p - 1) * k <? 0) eqn:E1; [|nia].
  destruct ((p - 1) * k + k <? 0) eqn:E2; [|nia].
  f_equal; [|f_equal]; nia.
Qed.

(** X18. A negative page size is not refused: on page 1, a page size of
    [- j] returns the rows without the last [j]. *)
Theorem negative_page_size_drops_the_tail :
  forall (queryResult : QueryResult T) (j : Z),
    1 <= j ->
    let r := withSqlPagination queryResult (- j) 1 in
    PaginationResult.data r
    = firstn (Z.to_nat (Z.of_nat (List.length (result_rows queryResult)) - j))
             (result_rows queryResult)
    /\ PaginationResult.perPage r = - j
    /\ PaginationResult.from r = 1.
Proof.
  intros qr j Hj r. split; [|split; [reflexivity|]].
  2:{ unfold r, withSqlPagination. cbn [PaginationResult.from].
      f_equal; lia. }
  unfold r. rewrite data_is_slice. unfold Slice.slice, Slice.relative.
  set (len := Z.of_nat (List.length (result_rows qr))).
  assert (Hlen : 0 <= len) by (unfold len; lia).
  replace ((1 - 1) * - j) with 0 by lia.
  replace (0 + - j) with (- j) by lia.
  destruct (0 <? 0) eqn:E0; [lia|].
  destruct (- j <? 0) eqn:E; [|lia].
  replace (Z.min 0 len) with 0 by lia. simpl skipn. f_equal. lia.
Qed.

(** X19. A page size of 0 gives no rows and no last page: the last page is
    [NaN] for a declared count of 0 and [Infinity] for a positive one. *)
Theorem page_size_zero :
  forall (rows : list T) (n p : Z),
    let r := withSqlPagination {| rowCount := Some n; result_rows := rows |} 0 p in
    PaginationResult.data r = []
    /\ (n = 0 -> PaginationResult.lastPage r = NaN)
    /\ (0 < n -> PaginationResult.lastPage r = PInf).
Proof.
  intros rows n p r. split.
  - unfold r. rewrite data_is_slice. apply slice_nil.
    replace ((p - 1) * 0 + 0) with ((p - 1) * 0) by lia. lia.
  - change (PaginationResult.lastPage r)
      with (Math_ceil (Exact.div (of_Z n) (of_Z 0))).
    split.
    + intros ->. reflexivity.
    + intros Hn. unfold Exact.div, of_Z.
      change (Qeq_bool (inject_Z 0) 0) with true. cbv iota.
      replace (inject_Z n ?= 0)%Q with Gt; [reflexivity|].
      symmetry. unfold Qcompare, inject_Z. cbn [Qnum Qden].
      apply Z.compare_gt_iff. lia.
Qed.

(** X20. With the row count of the rows themselves, the last page is the
    last page that holds rows: for a page size [k >= 1] and at least one
    row, the page [lastPage] is not empty and ends at the last row, and the
    page after it is empty. *)
Theorem last_page_holds_the_last_row :
  forall (rows : list T) (k : Z),
    1 <= k -> rows <> [] ->
    let n := Z.of_nat (List.length rows) in
    let page := withSqlPagination {| rowCount := Some n; result_rows := rows |} k in
    exists c,
      1 <= c
      /\ (forall p, PaginationResult.lastPage (page p) = of_Z c)
      /\ PaginationResult.data (page c) <> []
      /\ PaginationResult.to (page c) = n
      /\ PaginationResult.data (page (c + 1)) = [].
Proof.
  intros rows k Hk Hne n page.
  assert (Hn : 1 <= n) by (unfold n; destruct rows; simpl; [congruence | lia]).
  destruct (ceiling_of_count n k Hk) as (c & Hc & Hceil).
  unfold is_ceiling in Hceil.
  assert (Hc1 : 1 <= c) by nia.
  exists c.
  assert (Hlen : List.length (PaginationResult.data (page c))
                 = Z.to_nat (n - (c - 1) * k)).
  { unfold page. rewrite data_of_page by lia. simpl result_rows.
    rewrite length_firstn, length_skipn. unfold n in *. nia. }
  split; [exact Hc1|]. split; [intros p; exact Hc|]. split; [|split].
  - intros E. rewrite E in Hlen. simpl in Hlen. lia.
  - destruct (bounds_of_envelope
                {| rowCount := Some n; result_rows := rows |} k c) as [_ Hto].
    fold page in Hto. fold (page c) in Hto. rewrite Hto, Hlen.
    f_equal. lia.
  - unfold page. rewrite data_of_page by lia. simpl result_rows.
    rewrite skipn_all2; [apply firstn_nil|]. unfold n in *. nia.
Qed.

(** X21. A row count of [null] counts as 0: the total is 0 and, for a page
    size other than 0, so is the last page, while the rows of the page are
    returned all the same. *)
Theorem null_row_count :
  forall (rows : list T) (k p : Z),
    k <> 0 ->
    let r := withSqlPagination {| rowCount := None; result_rows := rows |} k p in
    PaginationResult.total r = of_Z 0
    /\ PaginationResult.lastPage r = of_Z 0
    /\ forall n,
         PaginationResult.data r
         = PaginationResult.data
             (withSqlPagination {| rowCount := Some n; result_rows := rows |} k p).
Proof.
  intros rows k p Hk r. split; [reflexivity|]. split; [|reflexivity].
  transitivity (Math_ceil (Exact.div (Fin (inject_Z 0)) (of_Z k)));
    [reflexivity|].
  rewrite ceil_div_Fin by exact Hk. f_equal.
Qed.

End RawResultEdges.

Lemma pages_outside_are_empty_witness :
  PaginationResult.data
    (Common.withSqlPagination
       {| Common.rowCount := Some 25; Common.result_rows := Scenario.table 25 |}
       10 4) = [].
Proof.
  apply (proj2 (pages_outside_are_empty
                  {| Common.rowCount := Some 25;
                     Common.result_rows := Scenario.table 25 |} 10 4)).
  - lia.
  - lia.
  - change (25 <= (4 - 1) * 10). lia.
Defined.

Lemma negative_page_counts_from_the_end_witness :
  PaginationResult.data
    (Common.withSqlPagination
       {| Common.rowCount := Some 25; Common.result_rows := Scenario.table 25 |}
       10 (-1))
  = Scenario.rows_between 25 10 5.
Proof.
  rewrite (negative_page_counts_from_the_end
             {| Common.rowCount := Some 25;
                Common.result_rows := Scenario.table 25 |} 10 (-1)
             ltac:(lia) ltac:(lia) ltac:(change (20 <= 25); lia)).
  reflexivity.
Defined.

Lemma negative_page_size_drops_the_tail_witness :
  PaginationResult.data
    (Common.withSqlPagination
       {| Common.rowCount := Some 25; Common.result_rows := Scenario.table 25 |}
       (-5) 1)
  = Scenario.rows_between 25 20 0.
Proof.
  apply (eq_trans
           (proj1 (negative_page_size_drops_the_tail
                     {| Common.rowCount := Some 25;
                        Common.result_rows := Scenario.table 25 |} 5
                     ltac:(lia)))).
  reflexivity.
Defined.

Lemma page_size_zero_witness :
  PaginationResult.lastPage
    (Common.withSqlPagination
       {| Common.rowCount := Some 25; Common.result_rows := Scenario.table 25 |}
       0 1) = JS.PInf.
Proof.
  apply (proj2 (proj2 (page_size_zero (Scenario.table 25) 25 1))). lia.
Defined.

Lemma last_page_holds_the_last_row_witness :
  exists c,
    1 <= c
    /\ PaginationResult.to
         (Common.withSqlPagination
            {| Common.rowCount := Some 25;
               Common.result_rows := Scenario.table 25 |} 10 c)
       = JS.of_Z 25.
Proof.
  destruct (last_page_holds_the_last_row (Scenario.table 25) 10
              ltac:(lia) ltac:(discriminate))
    as (c & Hc & _ & _ & Hto & _).
  exists c. split; [exact Hc | exact Hto].
Defined.

Lemma null_row_count_witness :
  PaginationResult.lastPage
    (Common.withSqlPagination
       {| Common.rowCount := None; Common.result_rows := Scenario.table 25 |}
       10 2) = JS.of_Z 0.
Proof.
  apply (proj1 (proj2 (null_row_count (Scenario.table 25) 10 2
                         ltac:(discriminate)))).
Defined.


Section IntegerReading.
Import JS Drizzle Async Common Laws Observe.

Context {T : Type}.

Lemma envelope_ext (a b : PaginationResult.t T) :
  PaginationResult.data a = PaginationResult.data b ->
  PaginationResult.total a = PaginationResult.total b ->
  PaginationResult.perPage a = PaginationResult.perPage b ->
  PaginationResult.currentPage a = PaginationResult.currentPage b ->
  PaginationResult.lastPage a = PaginationResult.lastPage b ->
  PaginationResult.from a = PaginationResult.from b ->
  PaginationResult.to a = PaginationResult.to b ->
  a = b.
Proof. destruct a, b; simpl; intros; subst; reflexivity. Qed.

(** X24. Where integers are exact, [withSqlPagination] is its reading over
    the integers: when [page - 1], the offset, the offset plus one, the
    offset plus the page size and the offset plus the number of rows
    returned are all safe integers, the two return the same rows and the
    same [from] and [to]; and for a declared count from 0 to below [2^53]
    and a page size from 1 to below [2^53], or no declared count, the same
    last page, so the same envelope. *)
Theorem integer_reading_agrees :
  forall (queryResult : QueryResult T) (k p : Z),
    let r := IEEE.withSqlPagination queryResult k p in
    let r' := withSqlPagination queryResult k p in
    safe (p - 1) -> safe ((p - 1) * k) -> safe ((p - 1) * k + 1) ->
    safe ((p - 1) * k + k) ->
    safe ((p - 1) * k + Z.of_nat (List.length (PaginationResult.data r'))) ->
    PaginationResult.data r = PaginationResult.data r'
    /\ PaginationResult.from r = PaginationResult.from r'
    /\ PaginationResult.to r = PaginationResult.to r'
    /\ PaginationResult.total r = PaginationResult.total r'
    /\ (1 <= k < 2 ^ 53 ->
        match rowCount queryResult with
        | Some n => 0 <= n < 2 ^ 53
        | None => True
        end ->
        r = r').
Proof.
  intros qr k p r r' H1 H2 H3 H4 H5.
  destruct (IEEE_offset qr k p H1 H2) as (Hd & Hf & Ht).
  cbv zeta in Hd, Hf, Ht. fold r in Hd, Hf, Ht.
  destruct (bounds_of_envelope qr k p) as [Hf' Ht']. fold r' in Hf', Ht'.
  assert (Ed : PaginationResult.data r = PaginationResult.data r')
    by (rewrite Hd by exact H4; reflexivity).
  assert (Ef : PaginationResult.from r = PaginationResult.from r')
    by (rewrite Hf, Hf' by exact H3; reflexivity).
  assert (Et : PaginationResult.to r = PaginationResult.to r').
  { rewrite Ht', <- Ed. apply Ht. rewrite Ed. exact H5. }
  split; [exact Ed|]. split; [exact Ef|]. split; [exact Et|].
  split; [unfold r, r', IEEE.withSqlPagination, withSqlPagination;
          destruct (rowCount qr); reflexivity|].
  intros Hk Hn.
  assert (El : PaginationResult.lastPage r = PaginationResult.lastPage r').
  { unfold r, r', IEEE.withSqlPagination, withSqlPagination.
    cbn [PaginationResult.lastPage].
    assert (E : forall n, 0 <= n < 2 ^ 53 ->
                Math_ceil (div (of_Z n) (of_Z k))
                = Math_ceil (Exact.div (of_Z n) (of_Z k))).
    { intros n Hn'. destruct (ceil_div_count n k Hn' Hk) as (c & -> & Hc).
      unfold of_Z at 2. rewrite ceil_div_Fin by lia. f_equal.
      apply (is_ceiling_unique _ _ n k); [lia | exact Hc |].
      apply Qceiling_Zdiv. lia. }
    destruct (rowCount qr) as [n|]; apply E; [exact Hn | lia]. }
  apply envelope_ext; try assumption; try reflexivity.
  unfold r, r', IEEE.withSqlPagination, withSqlPagination.
  destruct (rowCount qr); reflexivity.
Qed.

End IntegerReading.

(** Page 3 of 25 rows, ten to a page. *)
Lemma integer_reading_agrees_witness :
  IEEE.withSqlPagination
    {| Common.rowCount := Some 25; Common.result_rows := Scenario.table 25 |}
    10 3
  = Common.withSqlPagination
      {| Common.rowCount := Some 25; Common.result_rows := Scenario.table 25 |}
      10 3.
Proof.
  apply (integer_reading_agrees
           {| Common.rowCount := Some 25;
              Common.result_rows := Scenario.table 25 |} 10 3);
    try (unfold JS.safe; vm_compute; split; reflexivity);
    try (vm_compute; split; [discriminate | reflexivity]).
Defined.

Section Fallbacks.
Import JS Drizzle Async Common Laws Observe.

(** X23. A data result of no known shape is an empty page, not an error:
    when the data request is answered by anything that is neither an array
    nor a record with a [rows] array ([undefined], [null], a number, a
    record without [rows], ...), [paginate] returns no rows, with the total
    of the count, and the mapper is not run. *)
Theorem shapeless_data_is_an_empty_page :
  forall backend n this log countResult dataResult,
    let this' := Paginator.override n this in
    Paginator.prepared this' = true ->
    backend log (Paginator.countRequest this') = Return countResult ->
    backend (log ++ [Paginator.countRequest this'])%list
            (Paginator.dataRequest this') = Return dataResult ->
    Array_isArray dataResult = false ->
    hasRows dataResult = false ->
    exists r log',
      snd (Paginator.paginate backend n this) log = (Return r, log')
      /\ PaginationResult.data r = []
      /\ PaginationResult.total r = totalItems countResult.
Proof.
  intros backend n this log cr dr this' Hp Hc Hd Ha Hr.
  rewrite (paginate_run backend n this log Hp). fold this'.
  rewrite Hc, Hd. cbn [settle].
  assert (E : Paginator.pageData this' dr = Return []).
  { unfold Paginator.pageData. rewrite Hr.
    destruct (Paginator.direct this'), dr; try reflexivity; discriminate Ha. }
  rewrite E. simpl. eexists. eexists. split; [reflexivity|].
  split; reflexivity.
Qed.

Lemma shapeless_data_is_an_empty_page_witness :
  exists r log',
    snd (Paginator.paginate
           (fun _ r => match r with
                       | Await _ _ => Return VUndefined
                       | _ => Return (VObj [("rows", VArr [VObj [("count", VStr "3")]])])
                       end)
           None Scenario.composable) []
    = (Return r, log')
    /\ PaginationResult.data r = [].
Proof.
  destruct (shapeless_data_is_an_empty_page
              (fun _ r => match r with
                          | Await _ _ => Return VUndefined
                          | _ => Return (VObj [("rows", VArr [VObj [("count", VStr "3")]])])
                          end)
              None Scenario.composable []
              (VObj [("rows", VArr [VObj [("count", VStr "3")]])])
              VUndefined eq_refl eq_refl eq_refl eq_refl eq_refl)
    as (r & log' & Hrun & Hdata & _).
  exists r, log'. split; [exact Hrun | exact Hdata].
Defined.

End Fallbacks.
